(** * neko-rooms: the room engine and its HTTP handlers

  A shallow embedding of

  - [internal/config] (the [Room] configuration record),
  - [internal/room] (the [RoomManagerCtx] engine: [listContainers],
    [inspectContainer], [List], [Create], [Get], [Update], [Remove]),
  - [internal/api/rooms.go] (the handlers [roomsList], [roomCreate],
    [roomRecreate], [roomGetEntry], [roomGetSettings],
    [roomGenericAction]).

  The Docker client and the [types.RoomManager] the handlers talk to are
  interfaces: records of state-passing operations.  Every call through
  such an interface is appended to a call log, which is how "issues no
  runtime call" and "performs no mutating call" are stated.  The engine
  and the handlers at hand are of two revisions of the project (the
  engine's [Create] returns the room data and starts the unit, the
  handlers expect an id and call [Start] themselves): each is verified
  against the interface it is written for. *)

From Stdlib Require Import ZArith NArith String Ascii DecimalString DecimalN.
From stdpp Require Import base gmap strings list.

Set Warnings "-register-all,-clear-no-such-hyp".
Open Scope string_scope.
Open Scope list_scope.

(** ** Go values the sources rely on *)
Module Go.

(** Error values.  The two sentinels the handlers compare against,
    [types.ErrRoomNotFound] and [io.EOF], are constructors of their own;
    every other error value (the result of [fmt.Errorf] without [%w], the
    Docker client's errors, the JSON decoder's syntax and type errors) is
    an [errorString] carrying its message.  [ErrRoomNotFound] is declared
    in [internal/types], which is not among the sources: only its identity
    matters here, its message is a stand-in. *)
Inductive error : Type :=
| ErrRoomNotFound
| EOF
| errorString (msg : string).

(** [errors.Is err target]: [err] has no [Unwrap] chain in these sources,
    so the test is identity with the sentinel.  A freshly allocated
    [errorString] is never identical to a sentinel. *)
Definition errors_Is (err target : error) : bool :=
  match target, err with
  | ErrRoomNotFound, ErrRoomNotFound => true
  | EOF, EOF => true
  | _, _ => false
  end.

(** [err.Error()]. *)
Definition Error (err : error) : string :=
  match err with
  | ErrRoomNotFound => "room not found"
  | EOF => "EOF"
  | errorString msg => msg
  end.

(** A Go result pair [(T, error)] in which exactly one side is set. *)
Inductive result (A : Type) : Type :=
| Ok (a : A)
| Err (e : error).
Arguments Ok {A} a.
Arguments Err {A} e.

(** [fmt.Sprintf("%d", n)] for an unsigned [n]. *)
Definition itoa (n : N) : string := NilZero.string_of_uint (N.to_uint n).

(** A Go string is a sequence of bytes, and text in it is UTF-8: a byte
    below [utf8.RuneSelf] = 0x80 is an ASCII character, the others make up
    the runes of several bytes. *)
Definition isASCII (s : string) : bool :=
  forallb (fun c => (N_of_ascii c <? 128)%N) (list_ascii_of_string s).

Definition lower (c : ascii) : ascii :=
  let n := N_of_ascii c in
  if ((65 <=? n) && (n <=? 90))%N then ascii_of_N (n + 32) else c.

Definition upper (c : ascii) : ascii :=
  let n := N_of_ascii c in
  if ((97 <=? n) && (n <=? 122))%N then ascii_of_N (n - 32) else c.

Fixpoint lowerASCII (s : string) : string :=
  match s with
  | EmptyString => EmptyString
  | String c s' => String (lower c) (lowerASCII s')
  end.

(** [strings.ToLower].  A string of ASCII bytes only takes the function's
    own path: the letters [A]-[Z] become [a]-[z], every other byte stays.
    Any other string is handed to [strings.Map(unicode.ToLower, s)], which
    consults the Unicode tables (the Kelvin sign U+212A becomes [k], the
    dotted capital I U+0130 becomes [i], ...): [mapToLower] stands for that
    call. *)
Definition ToLower (mapToLower : string -> string) (s : string) : string :=
  if isASCII s then lowerASCII s else mapToLower s.

(** [encoding/json] matches an object key to a struct field by the field's
    name, exactly or else under case folding: the key and the name match
    when their folds are equal.  The fold turns the ASCII letters into
    upper case and every rune of several bytes into the smallest rune of
    its orbit under [unicode.SimpleFold].  Two such runes have an ASCII
    letter in their orbit and fold to it: the long s U+017F (bytes C5 BF)
    to [S], and the Kelvin sign U+212A (bytes E2 84 AA) to [K].  The fold
    of any other rune of several bytes is again outside ASCII; it is left
    in place here, which decides a match against an ASCII name the same
    way (there is none).  The field names of the sources are ASCII. *)
Fixpoint foldName (s : string) : string :=
  match s with
  | EmptyString => EmptyString
  | String c rest =>
      match N_of_ascii c, rest with
      | 197%N, String d rest' =>
          if (N_of_ascii d =? 191)%N then String "S" (foldName rest')
          else String c (foldName rest)
      | 226%N, String d (String e rest') =>
          if ((N_of_ascii d =? 132) && (N_of_ascii e =? 170))%N
          then String "K" (foldName rest')
          else String c (foldName rest)
      | _, _ => String (upper c) (foldName rest)
      end
  end.

(** The key [s] names the field [t] (an ASCII name). *)
Definition EqualFold (s t : string) : bool := String.eqb (foldName s) (foldName t).

End Go.
Export Go.

(** ** JSON request bodies and [encoding/json] decoding into a struct *)
Module JSON.

(** A number without fraction and exponent is kept as its literal reads:
    a sign and digits (JSON allows no leading zero, so the digits are their
    value).  [-0] is a literal of its own. *)
Inductive json : Type :=
| JNull
| JBool (b : bool)
| JNumber (minus : bool) (digits : N)   (* an integer literal *)
| JNonInteger (lit : string)            (* a literal with a fraction or exponent *)
| JString (s : string)
| JArray (items : list json)
| JObject (members : list (string * json)).

(** The text of an integer literal. *)
Definition literal (minus : bool) (digits : N) : string :=
  (if minus then "-" else "") +:+ itoa digits.

(** The value of an integer literal. *)
Definition integer (minus : bool) (digits : N) : Z :=
  if minus then (- Z.of_N digits)%Z else Z.of_N digits.

(** What [json.NewDecoder(r.Body)] finds in a request body: nothing but
    white space (then [Decode] returns [io.EOF]), bytes that are not a
    JSON value (a syntax error, reported before the target is touched)
    or a first JSON value. *)
Inductive Body : Type :=
| BodyEmpty
| BodyInvalid (msg : string)
| BodyValue (v : json).

(** [UnmarshalTypeError.Error()]: what could not be stored, and where. *)
Definition typeError (value target : string) : error :=
  errorString ("json: cannot unmarshal " +:+ value +:+ " into " +:+ target).

Definition structField (field typ : string) : string :=
  "Go struct field " +:+ field +:+ " of type " +:+ typ.

(** The decoder records the first type error, keeps decoding the other
    members, and returns that first error at the end. *)
Definition keep_first (e1 e2 : option error) : option error :=
  match e1 with
  | Some _ => e1
  | None => e2
  end.

Definition describe (v : json) : string :=
  match v with
  | JNull => "null"
  | JBool _ => "bool"
  | JNumber _ _ | JNonInteger _ => "number"
  | JString _ => "string"
  | JArray _ => "array"
  | JObject _ => "object"
  end.

(** A JSON value decoded into a field of a scalar type.  [null] leaves a
    non-pointer field as it is; a value of the wrong kind or out of the
    type's range leaves it as it is and is a type error.  An unsigned
    field reads its literal with [strconv.ParseUint], which takes no sign:
    [-0] is refused as any negative number is. *)
Definition decodeUint16 (field : string) (v : json) (old : N) : N * option error :=
  match v with
  | JNull => (old, None)
  | JNumber minus n =>
      if (negb minus && (n <=? 65535)%N) then (n, None)
      else (old, Some (typeError ("number " +:+ literal minus n) (structField field "uint16")))
  | JNonInteger lit =>
      (old, Some (typeError ("number " +:+ lit) (structField field "uint16")))
  | _ => (old, Some (typeError (describe v) (structField field "uint16")))
  end.

Definition decodeInt64 (field : string) (v : json) (old : Z) : Z * option error :=
  match v with
  | JNull => (old, None)
  | JNumber minus n =>
      let z := integer minus n in
      if ((- 2 ^ 63 <=? z) && (z <=? 2 ^ 63 - 1))%Z then (z, None)
      else (old, Some (typeError ("number " +:+ literal minus n) (structField field "int64")))
  | JNonInteger lit =>
      (old, Some (typeError ("number " +:+ lit) (structField field "int64")))
  | _ => (old, Some (typeError (describe v) (structField field "int64")))
  end.

Definition decodeString (field : string) (v : json) (old : string) : string * option error :=
  match v with
  | JNull => (old, None)
  | JString s => (s, None)
  | _ => (old, Some (typeError (describe v) (structField field "string")))
  end.

(** The members of an object are applied to the target one after the
    other, in the order of the text: a repeated key is applied twice and
    the later value stays. *)
Fixpoint decodeMembers {A : Type} (step : string * json -> A -> A * option error)
    (members : list (string * json)) (target : A) : A * option error :=
  match members with
  | [] => (target, None)
  | m :: rest =>
      let '(t1, e1) := step m target in
      let '(t2, e2) := decodeMembers step rest t1 in
      (t2, keep_first e1 e2)
  end.

(** No member of the object has a key that matches the field [name]. *)
Definition absent (name : string) (members : list (string * json)) : bool :=
  forallb (fun m => negb (EqualFold (fst m) name)) members.

(** No member of the object sets the field [name] of the struct-typed
    field [outer]: every member whose key matches [outer] holds an object
    without [name], or no object at all. *)
Definition untouched (outer name : string) (members : list (string * json)) : bool :=
  forallb (fun m => negb (EqualFold (fst m) outer)
                    || match snd m with
                       | JObject inner => absent name inner
                       | _ => true
                       end) members.

End JSON.
Export JSON.

(** ** [internal/types]: settings and room data *)
Module Types.

(** Modelled from the spec: the declarations of [types.RoomResources],
    [types.RoomSettings] and [types.RoomData] are not among the sources.
    The fields are the ones the sources use ([MaxConnections],
    [Resources.ShmSize], [ID], [RoomSettings], [Running]) and the ones the
    spec's data model lists (display name, image reference, CPU and memory
    shares, the assigned port range).  A field's JSON name is its Go
    name. *)
Record RoomResources : Type := {
  CPUShares : Z;
  Memory : Z;
  ShmSize : Z
}.

(** Modelled from the spec: [types.RoomSettings], "display name,
    image/template reference, MaxConnections, Resources". *)
Record RoomSettings : Type := {
  Name : string;
  NekoImage : string;
  MaxConnections : N;
  Resources : RoomResources
}.

(** Modelled from the spec: "PortRange: {start, end} pair of unsigned
    16-bit values". *)
Record PortRange : Type := {
  PortStart : N;
  PortEnd : N
}.

(** Modelled from the spec: [types.RoomData], "a unit identifier, the
    RoomSettings that produced it, a Running boolean, and the assigned port
    range". *)
Record RoomData : Type := {
  ID : string;
  Settings : RoomSettings;
  Running : bool;
  EPR : PortRange
}.

(** Go zero values: what a composite literal leaves in the fields it does
    not name. *)
Definition zeroResources : RoomResources :=
  {| CPUShares := 0; Memory := 0; ShmSize := 0 |}.

Definition zeroSettings : RoomSettings :=
  {| Name := ""; NekoImage := ""; MaxConnections := 0; Resources := zeroResources |}.

Definition zeroPortRange : PortRange := {| PortStart := 0; PortEnd := 0 |}.

(** One member of a JSON object decoded into a [RoomResources].  The key
    is matched against the field names with [EqualFold] (no two names
    have the same fold, so the decoder's preference for an exact match
    changes nothing); a key that matches no field is skipped. *)
Definition decodeResourcesMember (m : string * json) (r : RoomResources)
  : RoomResources * option error :=
  let '(key, v) := m in
  if EqualFold key "CPUShares" then
    let '(x, e) := decodeInt64 "RoomSettings.Resources.CPUShares" v (CPUShares r) in
    ({| CPUShares := x; Memory := Memory r; ShmSize := ShmSize r |}, e)
  else if EqualFold key "Memory" then
    let '(x, e) := decodeInt64 "RoomSettings.Resources.Memory" v (Memory r) in
    ({| CPUShares := CPUShares r; Memory := x; ShmSize := ShmSize r |}, e)
  else if EqualFold key "ShmSize" then
    let '(x, e) := decodeInt64 "RoomSettings.Resources.ShmSize" v (ShmSize r) in
    ({| CPUShares := CPUShares r; Memory := Memory r; ShmSize := x |}, e)
  else (r, None).

(** A JSON value decoded into a struct-typed field: an object is merged
    into the struct that is already there. *)
Definition decodeResources (v : json) (r : RoomResources) : RoomResources * option error :=
  match v with
  | JNull => (r, None)
  | JObject members => decodeMembers decodeResourcesMember members r
  | _ =>
      (r, Some (typeError (describe v)
                  (structField "RoomSettings.Resources" "types.RoomResources")))
  end.

Definition decodeSettingsMember (m : string * json) (s : RoomSettings)
  : RoomSettings * option error :=
  let '(key, v) := m in
  if EqualFold key "Name" then
    let '(x, e) := decodeString "RoomSettings.Name" v (Name s) in
    ({| Name := x; NekoImage := NekoImage s;
        MaxConnections := MaxConnections s; Resources := Resources s |}, e)
  else if EqualFold key "NekoImage" then
    let '(x, e) := decodeString "RoomSettings.NekoImage" v (NekoImage s) in
    ({| Name := Name s; NekoImage := x;
        MaxConnections := MaxConnections s; Resources := Resources s |}, e)
  else if EqualFold key "MaxConnections" then
    let '(x, e) := decodeUint16 "RoomSettings.MaxConnections" v (MaxConnections s) in
    ({| Name := Name s; NekoImage := NekoImage s;
        MaxConnections := x; Resources := Resources s |}, e)
  else if EqualFold key "Resources" then
    let '(x, e) := decodeResources v (Resources s) in
    ({| Name := Name s; NekoImage := NekoImage s;
        MaxConnections := MaxConnections s; Resources := x |}, e)
  else (s, None).

(** [json.NewDecoder(body).Decode(&request)] with [request] a
    [RoomSettings] value: the struct after the call and the error
    returned. *)
Definition Decode (body : Body) (request : RoomSettings) : RoomSettings * option error :=
  match body with
  | BodyEmpty => (request, Some EOF)
  | BodyInvalid msg => (request, Some (errorString msg))
  | BodyValue JNull => (request, None)
  | BodyValue (JObject members) => decodeMembers decodeSettingsMember members request
  | BodyValue v => (request, Some (typeError (describe v) "Go value of type types.RoomSettings"))
  end.

(** [Decode(&settings)] with [settings] a [*RoomSettings]: [None] is the
    nil pointer.  [null] sets the pointer to nil; an object is decoded into
    the struct the pointer refers to (a fresh zero struct when it is
    nil). *)
Definition DecodePtr (body : Body) (settings : option RoomSettings)
  : option RoomSettings * option error :=
  match body with
  | BodyEmpty => (settings, Some EOF)
  | BodyInvalid msg => (settings, Some (errorString msg))
  | BodyValue JNull => (None, None)
  | BodyValue (JObject members) =>
      let '(s, e) :=
        decodeMembers decodeSettingsMember members (default zeroSettings settings) in
      (Some s, e)
  | BodyValue v => (settings, Some (typeError (describe v) "Go value of type types.RoomSettings"))
  end.

End Types.
Export Types.

(** ** [internal/config] *)
Module Config.

Record Room : Type := {
  NAT1To1IPs : list string;
  EphemeralMin : N;
  EphemeralMax : N;
  TraefikDomain : string;
  TraefikEntrypoint : string;
  TraefikCertresolver : string;
  TraefikNetwork : string
}.

End Config.

(** ** The Docker client, as far as the engine uses it *)
Module Docker.

Record PortBinding : Type := {
  HostIP : string;
  HostPort : string
}.

(** [container.Config] *)
Record ContainerConfig : Type := {
  Hostname : string;
  Domainname : string;
  ExposedPorts : gset string;
  Env : list string;
  Image : string;
  Labels : gmap string string
}.

(** [container.HostConfig] *)
Record HostConfig : Type := {
  PortBindings : gmap string (list PortBinding);
  LogConfigType : string;
  LogConfigConfig : gmap string string;
  RestartPolicyName : string;
  CapAdd : list string;
  HostShmSize : Z
}.

(** [network.NetworkingConfig]: the names of the attached networks, each
    with empty endpoint settings. *)
Record NetworkingConfig : Type := {
  EndpointsConfig : gset string
}.

(** [dockerTypes.Container], an element of a container listing. *)
Record Container : Type := {
  ContainerID : string;
  ContainerLabels : gmap string string
}.

(** [dockerTypes.ContainerJSON], the result of an inspection. *)
Record ContainerJSON : Type := {
  JSONID : string;
  ConfigLabels : gmap string string;
  StateRunning : bool
}.

(** [dockerTypes.ContainerRemoveOptions] *)
Record ContainerRemoveOptions : Type := {
  RemoveVolumes : bool;
  Force : bool
}.

(** The client is an interface over some runtime state [W]: every method
    takes the runtime's state and returns its result with the state that
    follows.  [ContainerCreate] returns the new container's ID. *)
Record Client (W : Type) : Type := {
  ContainerList : W -> result (list Container) * W;
  ContainerInspectWithRaw : string -> W -> result ContainerJSON * W;
  ContainerCreate :
    ContainerConfig -> HostConfig -> NetworkingConfig -> string -> W -> result string * W;
  ContainerStart : string -> W -> option error * W;
  ContainerStop : string -> W -> option error * W;
  ContainerRemove : string -> ContainerRemoveOptions -> W -> option error * W
}.
Arguments ContainerList {W} _ _.
Arguments ContainerInspectWithRaw {W} _ _ _.
Arguments ContainerCreate {W} _ _ _ _ _ _.
Arguments ContainerStart {W} _ _ _.
Arguments ContainerStop {W} _ _ _.
Arguments ContainerRemove {W} _ _ _ _.

(** A call made through the client, with its arguments. *)
Inductive Call : Type :=
| CallContainerList
| CallContainerInspect (id : string)
| CallContainerCreate (config : ContainerConfig) (hostConfig : HostConfig)
    (networkingConfig : NetworkingConfig) (name : string)
| CallContainerStart (id : string)
| CallContainerStop (id : string)
| CallContainerRemove (id : string) (options : ContainerRemoveOptions).

(** The calls that change the runtime's units. *)
Definition mutating (c : Call) : bool :=
  match c with
  | CallContainerList | CallContainerInspect _ => false
  | _ => true
  end.

End Docker.
Export Docker.

(** ** [internal/room]: the engine *)
Module Room.

Definition nekoImage : string := "m1k1o/neko:latest".
Definition containerPrefix : string := "neko-room-".
Definition frontendPort : N := 8080.
Definition labelCanary : string := "m1k1o-neko-rooms".

(** The engine's view of the world: the runtime behind the client, and the
    log of the calls made through the client so far. *)
Record St (W : Type) : Type := {
  world : W;
  calls : list Call
}.
Arguments world {W} _.
Arguments calls {W} _.

Definition logged {W A : Type} (c : Call) (op : W -> A * W) (st : St W) : A * St W :=
  let '(r, w) := op (world st) in
  (r, {| world := w; calls := calls st ++ [c] |}).

Section Engine.

Context {W : Type}.

(** [manager.client] and [manager.config]. *)
Variable client : Client W.
Variable config : Config.Room.

(** [settings.Env(eprStart, eprEnd, nat1to1)]: the method is declared in
    [internal/types], which is not among the sources; the engine only
    appends its result to the unit's environment. *)
Variable settings_Env : RoomSettings -> N -> N -> list string -> list string.

Definition client_ContainerList : St W -> result (list Container) * St W :=
  logged CallContainerList (ContainerList client).

Definition client_ContainerInspectWithRaw (id : string) : St W -> result ContainerJSON * St W :=
  logged (CallContainerInspect id) (ContainerInspectWithRaw client id).

Definition client_ContainerCreate (c : ContainerConfig) (h : HostConfig)
    (n : NetworkingConfig) (name : string) : St W -> result string * St W :=
  logged (CallContainerCreate c h n name) (ContainerCreate client c h n name).

Definition client_ContainerStart (id : string) : St W -> option error * St W :=
  logged (CallContainerStart id) (ContainerStart client id).

Definition client_ContainerStop (id : string) : St W -> option error * St W :=
  logged (CallContainerStop id) (ContainerStop client id).

Definition client_ContainerRemove (id : string) (o : ContainerRemoveOptions)
  : St W -> option error * St W :=
  logged (CallContainerRemove id o) (ContainerRemove client id o).

(** The loop of [listContainers]: keep the containers whose canary label
    is present and has the engine's value, in the order of the listing. *)
Fixpoint listContainers_loop (containers result : list Container) : list Container :=
  match containers with
  | [] => result
  | container :: rest =>
      match ContainerLabels container !! "m1k1o.neko_rooms.canary" with
      | Some val =>
          if String.eqb val labelCanary
          then listContainers_loop rest (result ++ [container])
          else listContainers_loop rest result
      | None => listContainers_loop rest result
      end
  end.

Definition listContainers (st : St W) : result (list Container) * St W :=
  match client_ContainerList st with
  | (Err err, st1) => (Err err, st1)
  | (Ok containers, st1) => (Ok (listContainers_loop containers []), st1)
  end.

Definition inspectContainer (id : string) (st : St W) : result ContainerJSON * St W :=
  match client_ContainerInspectWithRaw id st with
  | (Err err, st1) => (Err err, st1)
  | (Ok container, st1) =>
      match ConfigLabels container !! "m1k1o.neko_rooms.canary" with
      | Some val =>
          if String.eqb val labelCanary
          then (Ok container, st1)
          else (Err (errorString "This container does not belong to neko_rooms."), st1)
      | None => (Err (errorString "This container does not belong to neko_rooms."), st1)
      end
  end.

(** [types.RoomData{ID: container.ID}]: the other fields keep their zero
    values. *)
Fixpoint List_loop (containers : list Container) (result : list RoomData) : list RoomData :=
  match containers with
  | [] => result
  | container :: rest =>
      List_loop rest
        (result ++ [{| ID := ContainerID container; Settings := zeroSettings;
                       Running := false; EPR := zeroPortRange |}])
  end.

Definition List (st : St W) : result (list RoomData) * St W :=
  match listContainers st with
  | (Err err, st1) => (Err err, st1)
  | (Ok containers, st1) => (Ok (List_loop containers []), st1)
  end.

(** *** [Create] *)

Definition pathName : string := "foobar".
Definition eprStart : N := 52135.
Definition eprEnd : N := 52145.

Definition portKey (port : N) : string := itoa port +:+ "/udp".

(** [for port := eprStart; port <= eprEnd; port++ { ... }]: [n] is the
    number of iterations left, [port] the loop variable. *)
Fixpoint ports_loop (n : nat) (port : N)
    (portBindings : gmap string (list PortBinding)) (exposedPorts : gset string)
  : gmap string (list PortBinding) * gset string :=
  match n with
  | O => (portBindings, exposedPorts)
  | S n' =>
      ports_loop n' (port + 1)
        (<[portKey port := [{| HostIP := "0.0.0.0"; HostPort := itoa port |}]]> portBindings)
        ({[portKey port]} ∪ exposedPorts)
  end.

Definition iterations (first last : N) : nat := N.to_nat (last + 1 - first).

Definition portBindings : gmap string (list PortBinding) :=
  fst (ports_loop (iterations eprStart eprEnd) eprStart ∅ {[portKey frontendPort]}).

Definition exposedPorts : gset string :=
  snd (ports_loop (iterations eprStart eprEnd) eprStart ∅ {[portKey frontendPort]}).

Definition containerName : string := containerPrefix +:+ pathName.

Definition labels : gmap string string :=
  let labels : gmap string string :=
    <["m1k1o.neko_rooms.canary" := labelCanary]> (
    <["m1k1o.neko_rooms.epr" := itoa eprStart +:+ "-" +:+ itoa eprEnd]> (
    <["traefik.enable" := "true"]> (
    <["traefik.http.services." +:+ containerName +:+ "-frontend.loadbalancer.server.port"
        := itoa frontendPort]> (
    <["traefik.http.routers." +:+ containerName +:+ ".entrypoints"
        := Config.TraefikEntrypoint config]> (
    <["traefik.http.routers." +:+ containerName +:+ ".rule"
        := "Host(`" +:+ Config.TraefikDomain config +:+ "`) && PathPrefix(`/"
           +:+ pathName +:+ "`)"]> (
    <["traefik.http.middlewares." +:+ containerName +:+ "-rdr.redirectregex.regex"
        := "/" +:+ pathName +:+ "$$"]> (
    <["traefik.http.middlewares." +:+ containerName +:+ "-rdr.redirectregex.replacement"
        := "/" +:+ pathName +:+ "/"]> (
    <["traefik.http.middlewares." +:+ containerName +:+ "-prf.stripprefix.prefixes"
        := "/" +:+ pathName +:+ "/"]> (
    <["traefik.http.routers." +:+ containerName +:+ ".middlewares"
        := containerName +:+ "-rdr," +:+ containerName +:+ "-prf"]> ∅))))))))) in
  if String.eqb (Config.TraefikCertresolver config) "" then labels
  else
    <["traefik.http.routers." +:+ containerName +:+ ".tls.certresolver"
        := Config.TraefikCertresolver config]> (
    <["traefik.http.routers." +:+ containerName +:+ ".tls" := "true"]> labels).

Definition containerConfig (settings : RoomSettings) : ContainerConfig :=
  {| Hostname := containerName;
     Domainname := containerName;
     ExposedPorts := exposedPorts;
     Env := ["NEKO_BIND=" +:+ itoa frontendPort]
              ++ settings_Env settings eprStart eprEnd (Config.NAT1To1IPs config);
     Image := nekoImage;
     Labels := labels |}.

(** [ShmSize: 2 * 10e9], the constant as written. *)
Definition hostConfig : HostConfig :=
  {| PortBindings := portBindings;
     LogConfigType := "json-file";
     LogConfigConfig := ∅;
     RestartPolicyName := "always";
     CapAdd := ["SYS_ADMIN"];
     HostShmSize := 2 * (10 * 10 ^ 9) |}.

Definition networkingConfig : NetworkingConfig :=
  {| EndpointsConfig := {[Config.TraefikNetwork config]} |}.

Definition Create (settings : RoomSettings) (st : St W) : result RoomData * St W :=
  (* Creating the actual container *)
  match client_ContainerCreate (containerConfig settings) hostConfig networkingConfig
          containerName st with
  | (Err err, st1) => (Err err, st1)
  | (Ok contID, st1) =>
      (* Run the actual container *)
      match client_ContainerStart contID st1 with
      | (Some err, st2) => (Err err, st2)
      | (None, st2) =>
          (Ok {| ID := contID; Settings := settings;
                 Running := false; EPR := zeroPortRange |}, st2)
      end
  end.

Definition Get (id : string) (st : St W) : result RoomData * St W :=
  match inspectContainer id st with
  | (Err err, st1) => (Err err, st1)
  | (Ok _, st1) =>
      (Ok {| ID := id; Settings := zeroSettings;
             Running := false; EPR := zeroPortRange |}, st1)
  end.

Definition Update (id : string) (settings : RoomSettings) (st : St W) : option error * St W :=
  match inspectContainer id st with
  | (Err err, st1) => (Some err, st1)
  | (Ok _, st1) => (None, st1)
  end.

Definition Remove (id : string) (st : St W) : option error * St W :=
  match inspectContainer id st with
  | (Err err, st1) => (Some err, st1)
  | (Ok _, st1) =>
      (* Stop the actual container *)
      match client_ContainerStop id st1 with
      | (Some err, st2) => (Some err, st2)
      | (None, st2) =>
          (* Remove the actual container *)
          client_ContainerRemove id {| RemoveVolumes := true; Force := true |} st2
      end
  end.

End Engine.

End Room.

(** ** [internal/api/rooms.go]: the HTTP handlers *)
Module Api.

(** What a handler leaves in the [http.ResponseWriter]. *)
Inductive Payload : Type :=
| JSONRooms (response : list RoomData)
| JSONRoom (response : RoomData)
| JSONSettings (response : RoomSettings).

Inductive Response : Type :=
| http_Error (msg : string) (code : N)   (* [http.Error(w, msg, code)] *)
| Encoded (p : Payload)                   (* status 200, the value as JSON *)
| NoContent                                (* [w.WriteHeader(http.StatusNoContent)] *)
| Panic.                                   (* the handler dereferenced a nil pointer *)

Definition status (r : Response) : option N :=
  match r with
  | http_Error _ code => Some code
  | Encoded _ => Some 200%N
  | NoContent => Some 204%N
  | Panic => None
  end.

(** [types.RoomManager], the interface behind [manager.rooms]: the
    methods the handlers call, with the signatures their use shows, over
    some state [S] of the implementation. *)
Record RoomManager (S : Type) : Type := {
  List : gmap string string -> S -> result (list RoomData) * S;
  Create : RoomSettings -> S -> result string * S;
  Start : string -> S -> option error * S;
  GetEntry : string -> S -> result RoomData * S;
  GetSettings : string -> S -> result RoomSettings * S;
  Remove : string -> S -> option error * S
}.
Arguments List {S} _ _ _.
Arguments Create {S} _ _ _.
Arguments Start {S} _ _ _.
Arguments GetEntry {S} _ _ _.
Arguments GetSettings {S} _ _ _.
Arguments Remove {S} _ _ _.

Inductive RoomsCall : Type :=
| CallList (labels : gmap string string)
| CallCreate (settings : RoomSettings)
| CallStart (id : string)
| CallGetEntry (id : string)
| CallGetSettings (id : string)
| CallRemove (id : string).

(** The handler's view: the manager's state and the calls made on the
    manager so far. *)
Record ApiSt (S : Type) : Type := {
  rooms : S;
  roomsCalls : list RoomsCall
}.
Arguments rooms {S} _.
Arguments roomsCalls {S} _.

Definition invoked {S A : Type} (c : RoomsCall) (op : S -> A * S) (st : ApiSt S) : A * ApiSt S :=
  let '(r, s) := op (rooms st) in
  (r, {| rooms := s; roomsCalls := roomsCalls st ++ [c] |}).

(** [r.URL.Query()]: a map from key to a non-empty list of values (the
    first value and the others), listed in the order in which [range]
    happens to visit the keys. *)
Definition Query : Type := list (string * (string * list string)).

Section Handlers.

Context {S : Type}.

(** [manager.rooms] *)
Variable manager : RoomManager S.

(** [room.CheckLabelKey]: declared in [internal/room], in a file that is
    not among the sources. *)
Variable CheckLabelKey : string -> bool.

(** [strings.Map(unicode.ToLower, s)], the part of [strings.ToLower] that
    lies in the Unicode tables. *)
Variable mapToLower : string -> string.

Definition rooms_List (labels : gmap string string) : ApiSt S -> result (list RoomData) * ApiSt S :=
  invoked (CallList labels) (List manager labels).

Definition rooms_Create (settings : RoomSettings) : ApiSt S -> result string * ApiSt S :=
  invoked (CallCreate settings) (Create manager settings).

Definition rooms_Start (id : string) : ApiSt S -> option error * ApiSt S :=
  invoked (CallStart id) (Start manager id).

Definition rooms_GetEntry (id : string) : ApiSt S -> result RoomData * ApiSt S :=
  invoked (CallGetEntry id) (GetEntry manager id).

Definition rooms_GetSettings (id : string) : ApiSt S -> result RoomSettings * ApiSt S :=
  invoked (CallGetSettings id) (GetSettings manager id).

Definition rooms_Remove (id : string) : ApiSt S -> option error * ApiSt S :=
  invoked (CallRemove id) (Remove manager id).

(** The loop of [roomsList]: [None] when a key fails the check (the
    handler has answered 400 and returned), else the filter map. *)
Fixpoint roomsList_loop (query : Query) (labelsMap : gmap string string)
  : option (gmap string string) :=
  match query with
  | [] => Some labelsMap
  | (key, (value0, _)) :: rest =>
      let key := ToLower mapToLower key in
      if negb (CheckLabelKey key) then None
      else roomsList_loop rest (<[key := value0]> labelsMap)
  end.

Definition roomsList (query : Query) (st : ApiSt S) : Response * ApiSt S :=
  match roomsList_loop query ∅ with
  | None => (http_Error "invalid label name, allowed characters: [a-z0-9.-]" 400, st)
  | Some labelsMap =>
      match rooms_List labelsMap st with
      | (Err err, st1) => (http_Error (Error err) 500, st1)
      | (Ok response, st1) => (Encoded (JSONRooms response), st1)
      end
  end.

Definition roomCreate (body : Body) (st : ApiSt S) : Response * ApiSt S :=
  (* Default values *)
  let request :=
    {| Name := ""; NekoImage := ""; MaxConnections := 10;
       Resources := {| CPUShares := 0; Memory := 0; ShmSize := 2 * 10 ^ 9 |} |} in
  match Decode body request with
  | (_, Some err) => (http_Error (Error err) 400, st)
  | (request, None) =>
      match rooms_Create request st with
      | (Err err, st1) => (http_Error (Error err) 500, st1)
      | (Ok ID, st1) =>
          match rooms_Start ID st1 with
          | (Some err, st2) => (http_Error (Error err) 500, st2)
          | (None, st2) =>
              match rooms_GetEntry ID st2 with
              | (Err err, st3) => (http_Error (Error err) 500, st3)
              | (Ok response, st3) => (Encoded (JSONRoom response), st3)
              end
          end
      end
  end.

(** The tail of [roomRecreate], from [if entry.Running] on. *)
Definition roomRecreate_finish (entry : RoomData) (ID : string) (st : ApiSt S)
  : Response * ApiSt S :=
  let '(started, st1) :=
    if Running entry then rooms_Start ID st else (None, st) in
  match started with
  | Some err => (http_Error (Error err) 500, st1)
  | None =>
      match rooms_GetEntry ID st1 with
      | (Err err, st2) => (http_Error (Error err) 500, st2)
      | (Ok response, st2) => (Encoded (JSONRoom response), st2)
      end
  end.

(** The middle of [roomRecreate]: remove the room, create it again from
    [*settings], then finish. *)
Definition roomRecreate_replace (entry : RoomData) (roomId : string)
    (settings : option RoomSettings) (st : ApiSt S) : Response * ApiSt S :=
  match rooms_Remove roomId st with
  | (Some err, st1) => (http_Error (Error err) 500, st1)
  | (None, st1) =>
      match settings with
      | None => (Panic, st1)
      | Some settings =>
          match rooms_Create settings st1 with
          | (Err err, st2) => (http_Error (Error err) 500, st2)
          | (Ok ID, st2) => roomRecreate_finish entry ID st2
          end
      end
  end.

Definition roomRecreate (roomId : string) (body : Body) (st : ApiSt S) : Response * ApiSt S :=
  match rooms_GetEntry roomId st with
  | (Err err, st1) =>
      if errors_Is err ErrRoomNotFound
      then (http_Error (Error err) 404, st1)
      else (http_Error (Error err) 500, st1)
  | (Ok entry, st1) =>
      match rooms_GetSettings roomId st1 with
      | (Err err, st2) => (http_Error (Error err) 500, st2)
      | (Ok settings, st2) =>
          (* optional settings payload *)
          let '(settings, decoded) := DecodePtr body (Some settings) in
          match decoded with
          | Some err =>
              if negb (errors_Is err EOF)
              then (http_Error (Error err) 400, st2)
              else roomRecreate_replace entry roomId settings st2
          | None => roomRecreate_replace entry roomId settings st2
          end
      end
  end.

Definition roomGetEntry (roomId : string) (st : ApiSt S) : Response * ApiSt S :=
  match rooms_GetEntry roomId st with
  | (Err err, st1) =>
      if errors_Is err ErrRoomNotFound
      then (http_Error (Error err) 404, st1)
      else (http_Error (Error err) 500, st1)
  | (Ok response, st1) => (Encoded (JSONRoom response), st1)
  end.

Definition roomGetSettings (roomId : string) (st : ApiSt S) : Response * ApiSt S :=
  match rooms_GetSettings roomId st with
  | (Err err, st1) =>
      if errors_Is err ErrRoomNotFound
      then (http_Error (Error err) 404, st1)
      else (http_Error (Error err) 500, st1)
  | (Ok response, st1) => (Encoded (JSONSettings response), st1)
  end.

Definition roomGenericAction (action : string -> ApiSt S -> option error * ApiSt S)
    (roomId : string) (st : ApiSt S) : Response * ApiSt S :=
  match action roomId st with
  | (Some err, st1) =>
      if errors_Is err ErrRoomNotFound
      then (http_Error (Error err) 404, st1)
      else (http_Error (Error err) 500, st1)
  | (None, st1) => (NoContent, st1)
  end.

End Handlers.

End Api.

(** ** A container runtime to run the engine against *)
Module Sim.

Inductive UnitState : Type :=
| UnitCreated
| UnitRunning
| UnitExited.

Record SimUnit : Type := {
  unitID : string;
  unitName : string;
  unitConfig : ContainerConfig;
  unitHostConfig : HostConfig;
  unitState : UnitState
}.

(** The runtime's units, and how many it has created so far. *)
Record World : Type := {
  units : list SimUnit;
  created : N
}.

Definition empty : World := {| units := []; created := 0 |}.

Definition isRunning (u : SimUnit) : bool :=
  match unitState u with
  | UnitRunning => true
  | _ => false
  end.

Definition find (id : string) (w : World) : option SimUnit :=
  List.find (fun u => String.eqb (unitID u) id) (units w).

Definition setState (id : string) (f : UnitState -> UnitState) (w : World) : World :=
  {| units :=
       map (fun u =>
              if String.eqb (unitID u) id
              then {| unitID := unitID u; unitName := unitName u;
                      unitConfig := unitConfig u; unitHostConfig := unitHostConfig u;
                      unitState := f (unitState u) |}
              else u) (units w);
     created := created w |}.

Definition noSuchContainer (id : string) : error :=
  errorString ("Error: No such container: " +:+ id).

(** A listing without options shows the running units only. *)
Definition simList (w : World) : result (list Container) * World :=
  (Ok (map (fun u => {| ContainerID := unitID u;
                        ContainerLabels := Labels (unitConfig u) |})
         (List.filter isRunning (units w))), w).

Definition simInspect (id : string) (w : World) : result ContainerJSON * World :=
  match find id w with
  | None => (Err (noSuchContainer id), w)
  | Some u =>
      (Ok {| JSONID := unitID u; ConfigLabels := Labels (unitConfig u);
             StateRunning := isRunning u |}, w)
  end.

(** A name can be used by one unit at a time. *)
Definition simCreate (c : ContainerConfig) (h : HostConfig) (n : NetworkingConfig)
    (name : string) (w : World) : result string * World :=
  if existsb (fun u => String.eqb (unitName u) name) (units w)
  then (Err (errorString ("Conflict. The container name /" +:+ name
                          +:+ " is already in use")), w)
  else
    let id := "unit-" +:+ itoa (created w) in
    (Ok id,
     {| units := units w ++ [{| unitID := id; unitName := name; unitConfig := c;
                                unitHostConfig := h; unitState := UnitCreated |}];
        created := created w + 1 |}).

Definition simStart (id : string) (w : World) : option error * World :=
  match find id w with
  | None => (Some (noSuchContainer id), w)
  | Some _ => (None, setState id (fun _ => UnitRunning) w)
  end.

Definition simStop (id : string) (w : World) : option error * World :=
  match find id w with
  | None => (Some (noSuchContainer id), w)
  | Some _ =>
      (None, setState id (fun s => match s with
                                   | UnitRunning => UnitExited
                                   | _ => s
                                   end) w)
  end.

Definition simRemove (id : string) (o : ContainerRemoveOptions) (w : World)
  : option error * World :=
  match find id w with
  | None => (Some (noSuchContainer id), w)
  | Some u =>
      if isRunning u && negb (Force o)
      then (Some (errorString "cannot remove a running container"), w)
      else (None, {| units := List.filter (fun u => negb (String.eqb (unitID u) id)) (units w);
                     created := created w |})
  end.

Definition client : Client World :=
  {| ContainerList := simList;
     ContainerInspectWithRaw := simInspect;
     ContainerCreate := simCreate;
     ContainerStart := simStart;
     ContainerStop := simStop;
     ContainerRemove := simRemove |}.

Definition stateOf (id : string) (w : World) : option UnitState :=
  unitState <$> find id w.

(** The configuration the flags default to, with the pool [Set] falls back
    on. *)
Definition config : Config.Room :=
  {| Config.NAT1To1IPs := ["10.0.0.1"];
     Config.EphemeralMin := 59000;
     Config.EphemeralMax := 59100;
     Config.TraefikDomain := "neko.lan";
     Config.TraefikEntrypoint := "web-secure";
     Config.TraefikCertresolver := "lets-encrypt";
     Config.TraefikNetwork := "traefik" |}.

(** Modelled from the spec: [RoomSettings.Env] is not among the sources.
    "An environment-variable list encoding ... NAT/public IP announcements
    (one entry per configured external IP), max-connection limit": the
    variable names are placeholders of this runtime. *)
Definition settings_Env (settings : RoomSettings) (eprStart eprEnd : N)
    (nat1to1 : list string) : list string :=
  ["NEKO_EPR=" +:+ itoa eprStart +:+ "-" +:+ itoa eprEnd]
    ++ map (fun ip => "NEKO_NAT1TO1=" +:+ ip) nat1to1
    ++ ["NEKO_MAX_CONNECTIONS=" +:+ itoa (MaxConnections settings)].

(** The character class [a-z0-9.-]. *)
Definition labelChar (c : ascii) : bool :=
  let n := N_of_ascii c in
  (((97 <=? n) && (n <=? 122)) || ((48 <=? n) && (n <=? 57))
   || (n =? 46) || (n =? 45))%N.

(** Modelled from the spec: [room.CheckLabelKey] is not among the sources.
    "Keys restricted to [a-z0-9.-]": every character of the key is a lower
    case letter, a digit, a dot or a dash. *)
Fixpoint CheckLabelKey (key : string) : bool :=
  match key with
  | EmptyString => true
  | String c rest => labelChar c && CheckLabelKey rest
  end.

Definition start : Room.St World := {| Room.world := empty; Room.calls := [] |}.

(** The request defaults of [roomCreate]. *)
Definition defaults : RoomSettings :=
  {| Name := ""; NekoImage := ""; MaxConnections := 10;
     Resources := {| CPUShares := 0; Memory := 0; ShmSize := 2 * 10 ^ 9 |} |}.

(** The runtime after one successful [Create]. *)
Definition oneRoom : Room.St World :=
  snd (Room.Create client config settings_Env defaults start).

(** A runtime with one running unit that the engine did not create: it
    has labels of its own and no canary. *)
Definition stranger : Room.St World :=
  {| Room.world :=
       {| units :=
            [{| unitID := "db-0"; unitName := "database";
                unitConfig :=
                  {| Hostname := "database"; Domainname := ""; ExposedPorts := ∅;
                     Env := []; Image := "postgres:16";
                     Labels := {["com.example.role" := "database"]} |};
                unitHostConfig := Room.hostConfig;
                unitState := UnitRunning |}];
          created := 1 |};
     Room.calls := [] |}.

(** The characters of a key that pass the check once the key is lower
    cased: the label characters and the upper case letters. *)
Definition foldedLabelChar (c : ascii) : bool :=
  let n := N_of_ascii c in
  (labelChar c || ((65 <=? n) && (n <=? 90)))%N.

(** The engine's [Get] behind the handlers' [GetEntry], to run
    [roomGetEntry] against the runtime.  For the other methods of the
    interface the engine of [internal/room] has no operation of that
    signature ([Remove] apart); they are refused, and nothing below calls
    them. *)
Definition lookup : Api.RoomManager (Room.St World) :=
  {| Api.List := fun _ st => (Err (errorString "not implemented"), st);
     Api.Create := fun _ st => (Err (errorString "not implemented"), st);
     Api.Start := fun _ st => (Some (errorString "not implemented"), st);
     Api.GetEntry := Room.Get client;
     Api.GetSettings := fun _ st => (Err (errorString "not implemented"), st);
     Api.Remove := Room.Remove client |}.

(** [strings.Map(unicode.ToLower, s)] on the strings of the examples: the
    Kelvin sign U+212A (bytes E2 84 AA) becomes [k] and the ASCII letters
    become lower case; the examples hold no other letters. *)
Fixpoint mapToLower (s : string) : string :=
  match s with
  | EmptyString => EmptyString
  | String c rest =>
      match N_of_ascii c, rest with
      | 226%N, String d (String e rest') =>
          if ((N_of_ascii d =? 132) && (N_of_ascii e =? 170))%N
          then String "k" (mapToLower rest')
          else String c (mapToLower rest)
      | _, _ => String (lower c) (mapToLower rest)
      end
  end.

(** The Kelvin sign, as a query key. *)
Definition kelvin : string :=
  String (ascii_of_N 226) (String (ascii_of_N 132) (String (ascii_of_N 170) EmptyString)).

End Sim.

(** ** A room manager that keeps its rooms in memory *)
Module Mem.

(** An implementation of the interface [types.RoomManager] to run the
    handlers against: the rooms with their settings and running flags, and
    the number of rooms created so far.  An unknown id is
    [ErrRoomNotFound]. *)
Record Rooms : Type := {
  entries : gmap string (RoomSettings * bool);
  count : N
}.

Definition entry (id : string) (p : RoomSettings * bool) : RoomData :=
  {| ID := id; Settings := fst p; Running := snd p; EPR := zeroPortRange |}.

Definition memList (labels : gmap string string) (m : Rooms) : result (list RoomData) * Rooms :=
  (Ok (map (fun kv => entry (fst kv) (snd kv)) (map_to_list (entries m))), m).

Definition memCreate (settings : RoomSettings) (m : Rooms) : result string * Rooms :=
  let id := "room-" +:+ itoa (count m) in
  (Ok id, {| entries := <[id := (settings, false)]> (entries m); count := count m + 1 |}).

Definition memStart (id : string) (m : Rooms) : option error * Rooms :=
  match entries m !! id with
  | None => (Some ErrRoomNotFound, m)
  | Some p => (None, {| entries := <[id := (fst p, true)]> (entries m); count := count m |})
  end.

Definition memGetEntry (id : string) (m : Rooms) : result RoomData * Rooms :=
  match entries m !! id with
  | None => (Err ErrRoomNotFound, m)
  | Some p => (Ok (entry id p), m)
  end.

Definition memGetSettings (id : string) (m : Rooms) : result RoomSettings * Rooms :=
  match entries m !! id with
  | None => (Err ErrRoomNotFound, m)
  | Some p => (Ok (fst p), m)
  end.

Definition memRemove (id : string) (m : Rooms) : option error * Rooms :=
  match entries m !! id with
  | None => (Some ErrRoomNotFound, m)
  | Some _ => (None, {| entries := delete id (entries m); count := count m |})
  end.

Definition manager : Api.RoomManager Rooms :=
  {| Api.List := memList;
     Api.Create := memCreate;
     Api.Start := memStart;
     Api.GetEntry := memGetEntry;
     Api.GetSettings := memGetSettings;
     Api.Remove := memRemove |}.

(** One stopped room, ["room-0"], with the settings [stored]. *)
Definition holding (stored : RoomSettings) : Api.ApiSt Rooms :=
  {| Api.rooms := {| entries := {["room-0" := (stored, false)]}; count := 1 |};
     Api.roomsCalls := [] |}.

(** The same room, running. *)
Definition serving (stored : RoomSettings) : Api.ApiSt Rooms :=
  {| Api.rooms := {| entries := {["room-0" := (stored, true)]}; count := 1 |};
     Api.roomsCalls := [] |}.

(** Whether the room [id] is there and runs. *)
Definition isRunning (m : Rooms) (id : string) : bool :=
  match entries m !! id with
  | Some p => snd p
  | None => false
  end.

End Mem.

(** ** What the specification describes: allocation and merging *)
Module Spec.

(** The specification's allocator, in its words: "scan the configured pool
    for the first sub-range of the requested width whose ports are not
    already claimed by any currently running room ...  Ties broken by
    lowest start port.  Fails with PoolExhausted when no sufficiently wide
    free sub-range exists."  [None] is [PoolExhausted]. *)
Definition overlap (a b : PortRange) : bool :=
  ((PortStart a <=? PortEnd b) && (PortStart b <=? PortEnd a))%N.

Definition free (claimed : list PortRange) (r : PortRange) : bool :=
  forallb (fun c => negb (overlap r c)) claimed.

Fixpoint scan (n : nat) (first width poolMax : N) (claimed : list PortRange)
  : option PortRange :=
  match n with
  | O => None
  | S n' =>
      let r := {| PortStart := first; PortEnd := first + width - 1 |} in
      if ((PortEnd r <=? poolMax)%N && free claimed r) then Some r
      else scan n' (first + 1)%N width poolMax claimed
  end.

Definition Allocate (poolMin poolMax width : N) (claimed : list PortRange)
  : option PortRange :=
  scan (N.to_nat (poolMax + 1 - poolMin)) poolMin width poolMax claimed.








(** "Determined via the Ownership Registry's label decoding across all
    managed units": the range a unit's ["start-end"] label encodes. *)
Fixpoint splitDash (s : string) (acc : string) : option (string * string) :=
  match s with
  | EmptyString => None
  | String c rest =>
      if Ascii.eqb c "-"%char then Some (acc, rest)
      else splitDash rest (acc +:+ String c EmptyString)
  end.

Definition decodeRange (label : string) : option PortRange :=
  match splitDash label "" with
  | None => None
  | Some (a, b) =>
      match NilZero.uint_of_string a, NilZero.uint_of_string b with
      | Some x, Some y => Some {| PortStart := N.of_uint x; PortEnd := N.of_uint y |}
      | _, _ => None
      end
  end.

Definition owned (c : Container) : bool :=
  match ContainerLabels c !! "m1k1o.neko_rooms.canary" with
  | Some val => String.eqb val Room.labelCanary
  | None => false
  end.

Definition claimed (containers : list Container) : list PortRange :=
  omap (fun c => ContainerLabels c !! "m1k1o.neko_rooms.epr" ≫= decodeRange)
    (List.filter owned containers).

(** The ranges claimed by the rooms the runtime lists as running. *)
Definition liveClaims {W : Type} (client : Client W) (w : W) : list PortRange :=
  match fst (ContainerList client w) with
  | Ok containers => claimed containers
  | Err _ => []
  end.

End Spec.

(** ** Reading the call logs *)
Module Log.

(** The host configurations of the create requests in a log. *)
Definition hostConfigs (cs : list Call) : list HostConfig :=
  omap (fun c => match c with
                 | CallContainerCreate _ h _ _ => Some h
                 | _ => None
                 end) cs.

(** The settings handed to the manager's [Create] in a log. *)
Definition createdWith (cs : list Api.RoomsCall) : list RoomSettings :=
  omap (fun c => match c with
                 | Api.CallCreate s => Some s
                 | _ => None
                 end) cs.

End Log.

(** ** [internal/config]: [Room.Set] *)
Module Flags.

(** What [viper] holds when [Set] runs: the values of the flags that
    [Init] declares. *)
Record Viper : Type := {
  nat1to1 : list string;
  epr : string;
  traefik_domain : string;
  traefik_entrypoint : string;
  traefik_certresolver : string;
  traefik_network : string
}.

(** [strings.SplitN(s, "-", -1)]: the pieces of [s] between the dashes,
    all of them; a string without a dash is its own single piece. *)
Fixpoint SplitN (s : string) : list string :=
  match s with
  | EmptyString => [EmptyString]
  | String c rest =>
      if Ascii.eqb c "-"%char then EmptyString :: SplitN rest
      else
        match SplitN rest with
        | piece :: pieces => String c piece :: pieces
        | [] => [String c EmptyString]
        end
  end.

(** The string has no dash. *)
Definition dashFree (s : string) : bool :=
  forallb (fun c => negb (Ascii.eqb c "-"%char)) (list_ascii_of_string s).

(** [strconv.ParseUint(s, 10, 16)]: a non-empty string of decimal digits
    whose value fits 16 bits; [None] stands for the error. *)
Definition ParseUint (s : string) : option N :=
  match NilZero.uint_of_string s with
  | None => None
  | Some d =>
      let n := N.of_uint d in
      if (n <=? 65535)%N then Some n else None
  end.

(** [Set], as a function of what [viper] holds and of the outcome of
    [utils.GetIP] (which is consulted only when no address is
    configured). *)
Definition Room_Set (v : Viper) (GetIP : result string) : Config.Room :=
  let NAT1To1IPs := nat1to1 v in
  (* if not specified, get public *)
  let NAT1To1IPs :=
    if (length NAT1To1IPs =? 0)%nat then
      match GetIP with
      | Ok ip => NAT1To1IPs ++ [ip]
      | Err _ => NAT1To1IPs
      end
    else NAT1To1IPs in
  let min := 59000%N in
  let max := 59100%N in
  let ports := SplitN (epr v) in
  let '(min, max) :=
    match ports with
    | ports0 :: ports1 :: _ =>
        (match ParseUint ports0 with
         | Some start => start
         | None => min
         end,
         match ParseUint ports1 with
         | Some end_ => end_
         | None => max
         end)
    | _ => (min, max)
    end in
  let '(EphemeralMin, EphemeralMax) :=
    if (max <? min)%N then (max, min) else (min, max) in
  {| Config.NAT1To1IPs := NAT1To1IPs;
     Config.EphemeralMin := EphemeralMin;
     Config.EphemeralMax := EphemeralMax;
     Config.TraefikDomain := traefik_domain v;
     Config.TraefikEntrypoint := traefik_entrypoint v;
     Config.TraefikCertresolver := traefik_certresolver v;
     Config.TraefikNetwork := traefik_network v |}.

(** The values the flags default to in [Init]. *)
Definition defaults : Viper :=
  {| nat1to1 := [];
     epr := "59000-59999";
     traefik_domain := "neko.lan";
     traefik_entrypoint := "web-secure";
     traefik_certresolver := "lets-encrypt";
     traefik_network := "traefik" |}.

Definition withEpr (text : string) : Viper :=
  {| nat1to1 := nat1to1 defaults;
     epr := text;
     traefik_domain := traefik_domain defaults;
     traefik_entrypoint := traefik_entrypoint defaults;
     traefik_certresolver := traefik_certresolver defaults;
     traefik_network := traefik_network defaults |}.

End Flags.

(** ** Runtimes and managers that fail on request *)
Module Faulty.

(** The runtime of [Sim], except that it refuses to start a unit. *)
Definition noStart : Client Sim.World :=
  {| ContainerList := Sim.simList;
     ContainerInspectWithRaw := Sim.simInspect;
     ContainerCreate := Sim.simCreate;
     ContainerStart := fun id w =>
       (Some (errorString "driver failed programming external connectivity"), w);
     ContainerStop := Sim.simStop;
     ContainerRemove := Sim.simRemove |}.

(** The runtime of [Sim], except that it refuses to stop a unit. *)
Definition noStop : Client Sim.World :=
  {| ContainerList := Sim.simList;
     ContainerInspectWithRaw := Sim.simInspect;
     ContainerCreate := Sim.simCreate;
     ContainerStart := Sim.simStart;
     ContainerStop := fun id w => (Some (errorString "cannot stop container"), w);
     ContainerRemove := Sim.simRemove |}.

(** The manager of [Mem], except that it cannot create a room. *)
Definition noCreate : Api.RoomManager Mem.Rooms :=
  {| Api.List := Mem.memList;
     Api.Create := fun _ m => (Err (errorString "no space left on device"), m);
     Api.Start := Mem.memStart;
     Api.GetEntry := Mem.memGetEntry;
     Api.GetSettings := Mem.memGetSettings;
     Api.Remove := Mem.memRemove |}.

End Faulty.

(** * Properties *)

(** ** The engine's [Create] *)
Section CreateFacts.

Context {W : Type}.
Variable client : Client W.
Variable config : Config.Room.
Variable settings_Env : RoomSettings -> N -> N -> list string -> list string.

Abbreviation Create := (Room.Create client config settings_Env).
Abbreviation containerConfig := (Room.containerConfig config settings_Env).

(** The calls [Create] makes: the create request, and the start request
    when the runtime accepted the create request. *)
Lemma Create_calls (settings : RoomSettings) (st : Room.St W) :
  Room.calls (snd (Create settings st)) =
    Room.calls st
      ++ CallContainerCreate (containerConfig settings) Room.hostConfig
           (Room.networkingConfig config) Room.containerName
      :: match fst (ContainerCreate client (containerConfig settings) Room.hostConfig
                      (Room.networkingConfig config) Room.containerName (Room.world st)) with
         | Ok id => [CallContainerStart id]
         | Err _ => []
         end.
Proof.
  unfold Room.Create, Room.client_ContainerCreate, Room.client_ContainerStart, Room.logged.
  destruct (ContainerCreate client _ _ _ _ _) as [[id | e] w1]; cbn [fst snd Room.world Room.calls].
  - destruct (ContainerStart client id w1) as [[e | ] w2];
      cbn [snd Room.calls]; rewrite <- app_assoc; reflexivity.
  - reflexivity.
Qed.

(** A successful [Create] is a successful create request followed by a
    successful start request for the unit just created. *)
Lemma Create_Ok_inv (settings : RoomSettings) (st st' : Room.St W) (data : RoomData) :
  Create settings st = (Ok data, st') ->
  exists w1,
    ContainerCreate client (containerConfig settings) Room.hostConfig
      (Room.networkingConfig config) Room.containerName (Room.world st) = (Ok (ID data), w1)
    /\ ContainerStart client (ID data) w1 = (None, Room.world st')
    /\ Room.calls st' =
         Room.calls st
           ++ [CallContainerCreate (containerConfig settings) Room.hostConfig
                 (Room.networkingConfig config) Room.containerName;
               CallContainerStart (ID data)]
    /\ Settings data = settings.
Proof.
  unfold Room.Create, Room.client_ContainerCreate, Room.client_ContainerStart, Room.logged.
  destruct (ContainerCreate client _ _ _ _ _) as [[id | e] w1]; cbn [fst snd Room.world Room.calls];
    [ | discriminate ].
  destruct (ContainerStart client id w1) as [[e | ] w2] eqn:Hstart; [ discriminate | ].
  intros H; injection H as <- <-. exists w1. cbn [ID Settings Room.world Room.calls].
  rewrite <- app_assoc. repeat split; auto.
Qed.

End CreateFacts.

Section CreateClaims.

Context {W : Type}.
Variable client : Client W.
Variable config : Config.Room.
Variable settings_Env : RoomSettings -> N -> N -> list string -> list string.

Abbreviation Create := (Room.Create client config settings_Env).
Abbreviation containerConfig := (Room.containerConfig config settings_Env).

Lemma labels_epr : Room.labels config !! "m1k1o.neko_rooms.epr" = Some "52135-52145".
Proof.
  unfold Room.labels.
  destruct (String.eqb (Config.TraefikCertresolver config) ""); vm_compute; reflexivity.
Qed.

Lemma labels_canary : Room.labels config !! "m1k1o.neko_rooms.canary" = Some Room.labelCanary.
Proof.
  unfold Room.labels.
  destruct (String.eqb (Config.TraefikCertresolver config) ""); vm_compute; reflexivity.
Qed.

(** C1, amended.  [Create] does not allocate.  Whatever the configured
    pool, the settings and the units the runtime holds, the first call it
    makes is the create request (it never lists or inspects units), which
    binds the UDP ports 52135 to 52145 to the same host ports and carries
    the label [epr = "52135-52145"]; the only other call is the start
    request, and [Create] fails exactly when the runtime refuses one of
    the two, with the runtime's error. *)
Theorem create_requests_fixed_port_range (settings : RoomSettings) (st : Room.St W) :
  let ports := [52135; 52136; 52137; 52138; 52139; 52140; 52141; 52142; 52143;
                52144; 52145]%N in
  let request :=
    ContainerCreate client (containerConfig settings) Room.hostConfig
      (Room.networkingConfig config) Room.containerName (Room.world st) in
  Room.calls (snd (Create settings st)) =
    Room.calls st
      ++ CallContainerCreate (containerConfig settings) Room.hostConfig
           (Room.networkingConfig config) Room.containerName
      :: match fst request with
         | Ok id => [CallContainerStart id]
         | Err _ => []
         end
  /\ Labels (containerConfig settings) !! "m1k1o.neko_rooms.epr" = Some "52135-52145"
  /\ PortBindings Room.hostConfig =
       list_to_map
         (map (fun p => (Room.portKey p, [{| HostIP := "0.0.0.0"; HostPort := itoa p |}]))
            ports)
  /\ ExposedPorts (containerConfig settings) =
       list_to_set (map Room.portKey (8080%N :: ports))
  /\ fst (Create settings st) =
       match request with
       | (Err err, _) => Err err
       | (Ok id, w1) =>
           match fst (ContainerStart client id w1) with
           | Some err => Err err
           | None => Ok {| ID := id; Settings := settings;
                           Running := false; EPR := zeroPortRange |}
           end
       end.
Proof.
  cbv zeta. split; [ apply Create_calls | ].
  split; [ apply labels_epr | ].
  split; [ vm_compute; reflexivity | ].
  split; [ vm_compute; reflexivity | ].
  unfold Room.Create, Room.client_ContainerCreate, Room.client_ContainerStart, Room.logged.
  destruct (ContainerCreate client _ _ _ _ _) as [[id | e] w1]; cbn [fst snd Room.world];
    [ | reflexivity ].
  destruct (ContainerStart client id w1) as [[e | ] w2]; reflexivity.
Qed.

(** C3, amended.  [Create] creates the unit and starts it: whenever it
    succeeds, the runtime has accepted the create request and then the
    start request for the unit just created, these are the two calls
    [Create] made, and the state it leaves is the one after the start. *)
Theorem create_starts_the_unit (settings : RoomSettings) (st st' : Room.St W)
    (data : RoomData) :
  Create settings st = (Ok data, st') ->
  exists w1,
    ContainerCreate client (containerConfig settings) Room.hostConfig
      (Room.networkingConfig config) Room.containerName (Room.world st) = (Ok (ID data), w1)
    /\ ContainerStart client (ID data) w1 = (None, Room.world st')
    /\ Room.calls st' =
         Room.calls st
           ++ [CallContainerCreate (containerConfig settings) Room.hostConfig
                 (Room.networkingConfig config) Room.containerName;
               CallContainerStart (ID data)].
Proof.
  intros H. destruct (Create_Ok_inv _ _ _ _ _ _ _ H) as (w1 & Hc & Hs & Hl & _).
  exists w1. auto.
Qed.

End CreateClaims.

(** ** [Create] on a concrete runtime *)

(** C1, counterexample.  With the pool 59000-59100 and no room at all, the
    allocator of the specification answers 59000-59010; [Create] asks the
    runtime for 52135-52145, which is not in the pool.  And once a running
    room claims 52135-52145, a pool that consists of these ports is
    exhausted, yet a second [Create] does not stop there: it sends the same
    create request, and what fails it is the runtime's refusal of the
    name. *)
Lemma create_allocation_counterexample :
  Config.EphemeralMin Sim.config = 59000%N
  /\ Config.EphemeralMax Sim.config = 59100%N
  /\ Spec.Allocate 59000 59100 11 (Spec.liveClaims Sim.client Sim.empty)
     = Some {| PortStart := 59000; PortEnd := 59010 |}
  /\ Labels (Room.containerConfig Sim.config Sim.settings_Env Sim.defaults)
       !! "m1k1o.neko_rooms.epr" ≫= Spec.decodeRange
     = Some {| PortStart := 52135; PortEnd := 52145 |}
  /\ Room.calls Sim.oneRoom =
       [CallContainerCreate (Room.containerConfig Sim.config Sim.settings_Env Sim.defaults)
          Room.hostConfig (Room.networkingConfig Sim.config) "neko-room-foobar";
        CallContainerStart "unit-0"]
  /\ Spec.liveClaims Sim.client (Room.world Sim.oneRoom)
     = [{| PortStart := 52135; PortEnd := 52145 |}]
  /\ Spec.Allocate 52135 52145 11 (Spec.liveClaims Sim.client (Room.world Sim.oneRoom)) = None
  /\ (let '(r, st) := Room.Create Sim.client Sim.config Sim.settings_Env Sim.defaults Sim.oneRoom in
      r = Err (errorString "Conflict. The container name /neko-room-foobar is already in use")
      /\ Room.calls st =
           Room.calls Sim.oneRoom
             ++ [CallContainerCreate (Room.containerConfig Sim.config Sim.settings_Env Sim.defaults)
                   Room.hostConfig (Room.networkingConfig Sim.config) "neko-room-foobar"]).
Proof.
  do 7 (split; [ vm_compute; reflexivity | ]).
  rewrite (surjective_pairing
             (Room.Create Sim.client Sim.config Sim.settings_Env Sim.defaults Sim.oneRoom)).
  split; vm_compute; reflexivity.
Qed.

(** C3, counterexample.  On an empty runtime [Create] succeeds, and the
    unit it made is running, not merely created. *)
Lemma create_leaves_unit_running_counterexample :
  fst (Room.Create Sim.client Sim.config Sim.settings_Env Sim.defaults Sim.start)
    = Ok {| ID := "unit-0"; Settings := Sim.defaults; Running := false; EPR := zeroPortRange |}
  /\ Sim.stateOf "unit-0" (Room.world Sim.oneRoom) = Some Sim.UnitRunning
  /\ Sim.stateOf "unit-0" (Room.world Sim.oneRoom) <> Some Sim.UnitCreated.
Proof. repeat split; [ vm_compute; reflexivity .. | vm_compute; discriminate ]. Qed.

Lemma create_starts_the_unit_witness :
  Room.Create Sim.client Sim.config Sim.settings_Env Sim.defaults Sim.start
    = (Ok {| ID := "unit-0"; Settings := Sim.defaults; Running := false; EPR := zeroPortRange |},
       Sim.oneRoom)
  /\ exists w1,
       ContainerCreate Sim.client (Room.containerConfig Sim.config Sim.settings_Env Sim.defaults)
         Room.hostConfig (Room.networkingConfig Sim.config) Room.containerName
         (Room.world Sim.start) = (Ok "unit-0", w1)
       /\ ContainerStart Sim.client "unit-0" w1 = (None, Room.world Sim.oneRoom)
       /\ Room.calls Sim.oneRoom =
            Room.calls Sim.start
              ++ [CallContainerCreate (Room.containerConfig Sim.config Sim.settings_Env Sim.defaults)
                    Room.hostConfig (Room.networkingConfig Sim.config) Room.containerName;
                  CallContainerStart "unit-0"].
Proof.
  assert (H : Room.Create Sim.client Sim.config Sim.settings_Env Sim.defaults Sim.start
              = (Ok {| ID := "unit-0"; Settings := Sim.defaults; Running := false;
                       EPR := zeroPortRange |}, Sim.oneRoom))
    by (vm_compute; reflexivity).
  split; [ exact H | ].
  exact (create_starts_the_unit Sim.client Sim.config Sim.settings_Env Sim.defaults Sim.start
           Sim.oneRoom _ H).
Defined.

(** ** Decoding a JSON object into settings *)

Lemma decodeMembers_app {A : Type} (step : string * json -> A -> A * option error)
    (pre post : list (string * json)) (a : A) :
  fst (decodeMembers step (pre ++ post) a)
  = fst (decodeMembers step post (fst (decodeMembers step pre a))).
Proof.
  revert a. induction pre as [ | m pre IH]; intros a; [ reflexivity | ].
  cbn [app decodeMembers].
  destruct (step m a) as [t1 e1]. specialize (IH t1).
  destruct (decodeMembers step (pre ++ post) t1) as [t2 e2].
  destruct (decodeMembers step pre t1) as [t3 e3].
  exact IH.
Qed.

(** What a member passing the test [skip] leaves alone, the whole object
    leaves alone when all its members pass the test. *)
Lemma decodeMembers_preserves {A B : Type} (step : string * json -> A -> A * option error)
    (proj : A -> B) (skip : string * json -> bool) :
  (forall m a, skip m = true -> proj (fst (step m a)) = proj a) ->
  forall members a,
    forallb skip members = true ->
    proj (fst (decodeMembers step members a)) = proj a.
Proof.
  intros Hstep. induction members as [ | m rest IH]; intros a Hall; [ reflexivity | ].
  cbn [forallb] in Hall. apply andb_prop in Hall as [Hm Hrest].
  cbn [decodeMembers].
  specialize (Hstep m a Hm). destruct (step m a) as [t1 e1]. cbn [fst] in Hstep.
  specialize (IH t1 Hrest). destruct (decodeMembers step rest t1) as [t2 e2].
  cbn [fst] in *. congruence.
Qed.


Ltac member_cases key :=
  repeat match goal with
         | |- context [EqualFold key ?name] => destruct (EqualFold key name) eqn:?
         end.

Ltac scalar_case :=
  match goal with
  | |- context [decodeInt64 ?f ?v ?old] => destruct (decodeInt64 f v old)
  | |- context [decodeUint16 ?f ?v ?old] => destruct (decodeUint16 f v old)
  | |- context [decodeString ?f ?v ?old] => destruct (decodeString f v old)
  | |- context [decodeResources ?v ?old] => destruct (decodeResources v old)
  end.

Lemma decodeResourcesMember_skip (name : string) (proj : RoomResources -> Z) :
  (name = "CPUShares" /\ proj = CPUShares)
  \/ (name = "Memory" /\ proj = Memory)
  \/ (name = "ShmSize" /\ proj = ShmSize) ->
  forall m r, negb (EqualFold (fst m) name) = true ->
              proj (fst (decodeResourcesMember m r)) = proj r.
Proof.
  intros Hname [key v] r Hskip. cbn [fst] in Hskip.
  apply negb_true_iff in Hskip.
  unfold decodeResourcesMember.
  destruct Hname as [[-> ->] | [[-> ->] | [-> ->]]];
    member_cases key; try congruence; try scalar_case; reflexivity.
Qed.

Lemma decodeResources_retains (name : string) (proj : RoomResources -> Z) :
  (name = "CPUShares" /\ proj = CPUShares)
  \/ (name = "Memory" /\ proj = Memory)
  \/ (name = "ShmSize" /\ proj = ShmSize) ->
  forall v r,
    match v with
    | JObject inner => absent name inner
    | _ => true
    end = true ->
    proj (fst (decodeResources v r)) = proj r.
Proof.
  intros Hname v r Hv. destruct v; try reflexivity.
  cbn [decodeResources].
  apply (decodeMembers_preserves decodeResourcesMember proj
           (fun m => negb (EqualFold (fst m) name))); [ | exact Hv ].
  apply decodeResourcesMember_skip, Hname.
Qed.

Lemma decodeSettingsMember_skip_Name m s :
  negb (EqualFold (fst m) "Name") = true ->
  Name (fst (decodeSettingsMember m s)) = Name s.
Proof.
  destruct m as [key v]. cbn [fst]. intros Hskip%negb_true_iff.
  unfold decodeSettingsMember. member_cases key; try congruence; try scalar_case; reflexivity.
Qed.

Lemma decodeSettingsMember_skip_NekoImage m s :
  negb (EqualFold (fst m) "NekoImage") = true ->
  NekoImage (fst (decodeSettingsMember m s)) = NekoImage s.
Proof.
  destruct m as [key v]. cbn [fst]. intros Hskip%negb_true_iff.
  unfold decodeSettingsMember. member_cases key; try congruence; try scalar_case; reflexivity.
Qed.

Lemma decodeSettingsMember_skip_MaxConnections m s :
  negb (EqualFold (fst m) "MaxConnections") = true ->
  MaxConnections (fst (decodeSettingsMember m s)) = MaxConnections s.
Proof.
  destruct m as [key v]. cbn [fst]. intros Hskip%negb_true_iff.
  unfold decodeSettingsMember. member_cases key; try congruence; try scalar_case; reflexivity.
Qed.

Lemma decodeSettingsMember_skip_Resources (name : string) (proj : RoomResources -> Z) :
  (name = "CPUShares" /\ proj = CPUShares)
  \/ (name = "Memory" /\ proj = Memory)
  \/ (name = "ShmSize" /\ proj = ShmSize) ->
  forall m s,
    negb (EqualFold (fst m) "Resources")
    || match snd m with
       | JObject inner => absent name inner
       | _ => true
       end = true ->
    proj (Resources (fst (decodeSettingsMember m s))) = proj (Resources s).
Proof.
  intros Hname [key v] s Hskip. cbn [fst snd] in Hskip.
  unfold decodeSettingsMember.
  destruct (EqualFold key "Name"); [ scalar_case; reflexivity | ].
  destruct (EqualFold key "NekoImage"); [ scalar_case; reflexivity | ].
  destruct (EqualFold key "MaxConnections"); [ scalar_case; reflexivity | ].
  destruct (EqualFold key "Resources"); [ | reflexivity ].
  cbn [negb orb] in Hskip.
  pose proof (decodeResources_retains name proj Hname v (Resources s) Hskip) as H.
  destruct (decodeResources v (Resources s)). exact H.
Qed.

(** The fields a JSON object does not mention keep their values. *)
Lemma decodeSettings_retains (members : list (string * json)) (s : RoomSettings) :
  let s' := fst (decodeMembers decodeSettingsMember members s) in
  (absent "Name" members = true -> Name s' = Name s)
  /\ (absent "NekoImage" members = true -> NekoImage s' = NekoImage s)
  /\ (absent "MaxConnections" members = true -> MaxConnections s' = MaxConnections s)
  /\ (untouched "Resources" "CPUShares" members = true ->
      CPUShares (Resources s') = CPUShares (Resources s))
  /\ (untouched "Resources" "Memory" members = true ->
      Memory (Resources s') = Memory (Resources s))
  /\ (untouched "Resources" "ShmSize" members = true ->
      ShmSize (Resources s') = ShmSize (Resources s)).
Proof.
  cbv zeta. repeat split; intros H.
  - apply (decodeMembers_preserves _ Name _ decodeSettingsMember_skip_Name _ _ H).
  - apply (decodeMembers_preserves _ NekoImage _ decodeSettingsMember_skip_NekoImage _ _ H).
  - apply (decodeMembers_preserves _ MaxConnections _
             decodeSettingsMember_skip_MaxConnections _ _ H).
  - apply (decodeMembers_preserves _ (fun s => CPUShares (Resources s)) _
             (decodeSettingsMember_skip_Resources "CPUShares" CPUShares
                (or_introl (conj eq_refl eq_refl))) _ _ H).
  - apply (decodeMembers_preserves _ (fun s => Memory (Resources s)) _
             (decodeSettingsMember_skip_Resources "Memory" Memory
                (or_intror (or_introl (conj eq_refl eq_refl)))) _ _ H).
  - apply (decodeMembers_preserves _ (fun s => ShmSize (Resources s)) _
             (decodeSettingsMember_skip_Resources "ShmSize" ShmSize
                (or_intror (or_intror (conj eq_refl eq_refl)))) _ _ H).
Qed.

(** ** The decoder against the merge of the specification *)

















(** ** The handlers over any room manager *)
Section HandlerFacts.

Context {S : Type}.
Variable M : Api.RoomManager S.

Lemma createdWith_app (a b : list Api.RoomsCall) :
  Log.createdWith (a ++ b) = Log.createdWith a ++ Log.createdWith b.
Proof. apply omap_app. Qed.

(** The tail of [roomRecreate] answers 200 or 500, calls [Start] only for
    an entry that was running, and never calls [Create]. *)
Lemma roomRecreate_finish_facts (entry : RoomData) (ID : string) (st : Api.ApiSt S) :
  let r := Api.roomRecreate_finish M entry ID st in
  (Api.status (fst r) = Some 500%N \/ Api.status (fst r) = Some 200%N)
  /\ exists rest,
       Api.roomsCalls (snd r) = Api.roomsCalls st ++ rest
       /\ Log.createdWith rest = []
       /\ (Running entry = false -> ~ In (Api.CallStart ID) rest).
Proof.
  cbv zeta. unfold Api.roomRecreate_finish, Api.rooms_Start, Api.rooms_GetEntry, Api.invoked.
  destruct (Running entry).
  - destruct (Api.Start M ID (Api.rooms st)) as [[e | ] s1]; cbn.
    + split; [ auto | ]. exists [Api.CallStart ID]. repeat split; auto. discriminate.
    + destruct (Api.GetEntry M ID s1) as [[d | e] s2]; cbn;
        (split; [ auto | ]); exists [Api.CallStart ID; Api.CallGetEntry ID];
        rewrite <- app_assoc; repeat split; auto; discriminate.
  - cbn. destruct (Api.GetEntry M ID (Api.rooms st)) as [[d | e] s2]; cbn;
      (split; [ auto | ]); exists [Api.CallGetEntry ID];
      (repeat split; auto); intros _ [H | []]; discriminate.
Qed.

(** From [Remove] on, with settings in hand: the answer is 200 or 500,
    [Remove] is the next call, and when it succeeds [Create] is called
    once, with these settings. *)
Lemma roomRecreate_replace_facts (entry : RoomData) (roomId : string)
    (settings : RoomSettings) (st : Api.ApiSt S) :
  let r := Api.roomRecreate_replace M entry roomId (Some settings) st in
  (Api.status (fst r) = Some 500%N \/ Api.status (fst r) = Some 200%N)
  /\ (exists rest, Api.roomsCalls (snd r) = Api.roomsCalls st ++ Api.CallRemove roomId :: rest)
  /\ (fst (Api.Remove M roomId (Api.rooms st)) = None ->
      Log.createdWith (Api.roomsCalls (snd r))
      = Log.createdWith (Api.roomsCalls st) ++ [settings]).
Proof.
  cbv zeta. unfold Api.roomRecreate_replace, Api.rooms_Remove, Api.rooms_Create, Api.invoked.
  destruct (Api.Remove M roomId (Api.rooms st)) as [[e | ] s1]; cbn [fst snd Api.rooms Api.roomsCalls].
  - cbn. split; [ auto | ]. split; [ exists []; reflexivity | discriminate ].
  - destruct (Api.Create M settings s1) as [[ID | e] s2]; cbn [fst snd Api.rooms Api.roomsCalls].
    + match goal with
      | |- context [Api.roomRecreate_finish M entry ID ?st0] =>
          destruct (roomRecreate_finish_facts entry ID st0) as (Hst & rest & Hcalls & Hnone & _)
      end.
      cbn [Api.roomsCalls] in Hcalls.
      split; [ exact Hst | ]. rewrite Hcalls. split.
      * exists ([Api.CallCreate settings] ++ rest). rewrite <- !app_assoc. reflexivity.
      * intros _. rewrite !createdWith_app, Hnone. cbn. rewrite !app_nil_r. reflexivity.
    + cbn. split; [ auto | ]. split.
      * exists [Api.CallCreate settings]. rewrite <- app_assoc. reflexivity.
      * intros _. rewrite !createdWith_app. cbn. rewrite !app_nil_r. reflexivity.
Qed.

(** [roomRecreate] up to the decoding of the body, when the decoder
    reports no error or end of input. *)
Lemma roomRecreate_decoded (roomId : string) (body : Body) (st : Api.ApiSt S)
    (entry : RoomData) (stored : RoomSettings) (st1 st2 : S)
    (settings : option RoomSettings) (e : option error) :
  Api.GetEntry M roomId (Api.rooms st) = (Ok entry, st1) ->
  Api.GetSettings M roomId st1 = (Ok stored, st2) ->
  DecodePtr body (Some stored) = (settings, e) ->
  e = None \/ e = Some EOF ->
  Api.roomRecreate M roomId body st
  = Api.roomRecreate_replace M entry roomId settings
      {| Api.rooms := st2;
         Api.roomsCalls :=
           Api.roomsCalls st ++ [Api.CallGetEntry roomId; Api.CallGetSettings roomId] |}.
Proof.
  intros HE HS HD He.
  unfold Api.roomRecreate, Api.rooms_GetEntry, Api.rooms_GetSettings, Api.invoked.
  rewrite HE. cbn [Api.rooms Api.roomsCalls]. rewrite HS, HD.
  rewrite <- app_assoc. cbn [app].
  destruct He as [-> | ->]; reflexivity.
Qed.

(** [roomCreate] hands the decoded request to [Create], once. *)
Lemma roomCreate_decoded (body : Body) (request : RoomSettings) (st : Api.ApiSt S) :
  Decode body Sim.defaults = (request, None) ->
  Log.createdWith (Api.roomsCalls (snd (Api.roomCreate M body st)))
  = Log.createdWith (Api.roomsCalls st) ++ [request].
Proof.
  intros HD. unfold Api.roomCreate.
  change {| Name := ""; NekoImage := ""; MaxConnections := 10;
            Resources := {| CPUShares := 0; Memory := 0; ShmSize := 2 * 10 ^ 9 |} |}
    with Sim.defaults.
  rewrite HD. unfold Api.rooms_Create, Api.rooms_Start, Api.rooms_GetEntry, Api.invoked.
  destruct (Api.Create M request (Api.rooms st)) as [[ID | e] s1];
    cbn [fst snd Api.rooms Api.roomsCalls].
  - destruct (Api.Start M ID s1) as [[e | ] s2]; cbn [fst snd Api.rooms Api.roomsCalls].
    + rewrite !createdWith_app. cbn. rewrite app_nil_r. reflexivity.
    + destruct (Api.GetEntry M ID s2) as [[d | e] s3]; cbn [snd Api.roomsCalls];
        rewrite !createdWith_app; cbn; rewrite !app_nil_r; reflexivity.
  - rewrite !createdWith_app. reflexivity.
Qed.

End HandlerFacts.



Lemma Create_hostConfigs {W : Type} (client : Client W) (config : Config.Room)
    (settings_Env : RoomSettings -> N -> N -> list string -> list string)
    (settings : RoomSettings) (st : Room.St W) :
  Log.hostConfigs (Room.calls (snd (Room.Create client config settings_Env settings st)))
  = Log.hostConfigs (Room.calls st) ++ [Room.hostConfig].
Proof.
  rewrite Create_calls. unfold Log.hostConfigs. rewrite omap_app. f_equal.
  destruct (fst (ContainerCreate client _ _ _ _ _)); reflexivity.
Qed.

(** C6, amended.  The resource limits of the unit do not come from the
    settings: whatever the settings, the create request of [Create]
    carries one and the same host configuration, with the capability
    [SYS_ADMIN] and a shared-memory size that is a constant of the engine.
    What defaults to 2 * 10^9 is the [Resources.ShmSize] of the settings
    that [roomCreate] hands to the manager's [Create], whenever the body
    is an object that decodes without a type error and does not set it. *)
Theorem create_resources_ignore_settings {W S : Type} (client : Client W)
    (config : Config.Room)
    (settings_Env : RoomSettings -> N -> N -> list string -> list string)
    (M : Api.RoomManager S) (s1 s2 : RoomSettings) (st : Room.St W)
    (members : list (string * json)) (request : RoomSettings) (apiSt : Api.ApiSt S) :
  Decode (BodyValue (JObject members)) Sim.defaults = (request, None) ->
  untouched "Resources" "ShmSize" members = true ->
  Log.hostConfigs (Room.calls (snd (Room.Create client config settings_Env s1 st)))
  = Log.hostConfigs (Room.calls (snd (Room.Create client config settings_Env s2 st)))
  /\ Log.hostConfigs (Room.calls (snd (Room.Create client config settings_Env s1 st)))
     = Log.hostConfigs (Room.calls st) ++ [Room.hostConfig]
  /\ CapAdd Room.hostConfig = ["SYS_ADMIN"]
  /\ Log.createdWith
       (Api.roomsCalls (snd (Api.roomCreate M (BodyValue (JObject members)) apiSt)))
     = Log.createdWith (Api.roomsCalls apiSt) ++ [request]
  /\ ShmSize (Resources request) = (2 * 10 ^ 9)%Z.
Proof.
  intros HD Hshm.
  split; [ rewrite !Create_hostConfigs; reflexivity | ].
  split; [ apply Create_hostConfigs | ].
  split; [ reflexivity | ].
  split; [ apply roomCreate_decoded, HD | ].
  cbn [Decode] in HD.
  destruct (decodeSettings_retains members Sim.defaults) as (_ & _ & _ & _ & _ & H).
  rewrite HD in H. cbn [fst] in H. rewrite (H Hshm). reflexivity.
Qed.

Lemma create_resources_ignore_settings_witness :
  let body := [("maxConnections", JNumber false 5)] in
  let request :=
    {| Name := ""; NekoImage := ""; MaxConnections := 5;
       Resources := {| CPUShares := 0; Memory := 0; ShmSize := 2 * 10 ^ 9 |} |} in
  Decode (BodyValue (JObject body)) Sim.defaults = (request, None)
  /\ Log.hostConfigs
       (Room.calls (snd (Room.Create Sim.client Sim.config Sim.settings_Env request Sim.start)))
     = Log.hostConfigs
         (Room.calls (snd (Room.Create Sim.client Sim.config Sim.settings_Env zeroSettings
                             Sim.start)))
  /\ Log.createdWith
       (Api.roomsCalls
          (snd (Api.roomCreate Mem.manager (BodyValue (JObject body)) (Mem.holding Sim.defaults))))
     = [request]
  /\ ShmSize (Resources request) = (2 * 10 ^ 9)%Z.
Proof.
  cbv zeta.
  destruct (create_resources_ignore_settings Sim.client Sim.config Sim.settings_Env
              Mem.manager
              {| Name := ""; NekoImage := ""; MaxConnections := 5;
                 Resources := {| CPUShares := 0; Memory := 0; ShmSize := 2 * 10 ^ 9 |} |}
              zeroSettings Sim.start [("maxConnections", JNumber false 5)] _
              (Mem.holding Sim.defaults) eq_refl eq_refl)
    as (Hsame & _ & _ & Hcreated & Hshm).
  split; [ reflexivity | ].
  split; [ exact Hsame | ].
  split; [ exact Hcreated | exact Hshm ].
Defined.

(** C6, counterexample.  For the default settings, whose shared-memory
    size is 2 * 10^9, the host configuration [Create] sends to the runtime
    asks for another size. *)
Lemma create_shm_size_counterexample :
  ShmSize (Resources Sim.defaults) = 2000000000%Z
  /\ map HostShmSize (Log.hostConfigs (Room.calls Sim.oneRoom)) = [20000000000%Z]
  /\ map HostShmSize (Log.hostConfigs (Room.calls Sim.oneRoom))
     <> [ShmSize (Resources Sim.defaults)].
Proof.
  split; [ reflexivity | ].
  split; [ vm_compute; reflexivity | vm_compute; discriminate ].
Qed.

(** C9.  An empty body is fatal to [roomCreate] and harmless to
    [roomRecreate].  For any room manager, [roomCreate] answers an empty
    body with 400 and the decoder's end-of-input error, without calling
    the manager.  [roomRecreate], for a room that is found and whose
    settings are read, gets the same error from the decoder and goes on:
    its next call is [Remove], it does not answer 400, and when [Remove]
    succeeds it calls [Create] with the stored settings. *)
Theorem empty_body_create_fails_recreate_proceeds {S : Type} (M : Api.RoomManager S)
    (roomId : string) (st : Api.ApiSt S) (entry : RoomData) (stored : RoomSettings)
    (st1 st2 : S) :
  Api.GetEntry M roomId (Api.rooms st) = (Ok entry, st1) ->
  Api.GetSettings M roomId st1 = (Ok stored, st2) ->
  Api.roomCreate M BodyEmpty st = (Api.http_Error "EOF" 400, st)
  /\ DecodePtr BodyEmpty (Some stored) = (Some stored, Some EOF)
  /\ Api.status (fst (Api.roomRecreate M roomId BodyEmpty st)) <> Some 400%N
  /\ (exists rest,
        Api.roomsCalls (snd (Api.roomRecreate M roomId BodyEmpty st))
        = Api.roomsCalls st
            ++ [Api.CallGetEntry roomId; Api.CallGetSettings roomId; Api.CallRemove roomId]
            ++ rest)
  /\ (fst (Api.Remove M roomId st2) = None ->
      Log.createdWith (Api.roomsCalls (snd (Api.roomRecreate M roomId BodyEmpty st)))
      = Log.createdWith (Api.roomsCalls st) ++ [stored]).
Proof.
  intros HE HS.
  split; [ reflexivity | ].
  split; [ reflexivity | ].
  rewrite (roomRecreate_decoded M roomId BodyEmpty st entry stored st1 st2
             (Some stored) (Some EOF) HE HS eq_refl (or_intror eq_refl)).
  match goal with
  | |- context [Api.roomRecreate_replace M entry roomId (Some stored) ?st0] =>
      destruct (roomRecreate_replace_facts M entry roomId stored st0)
        as (Hstatus & (rest & Hcalls) & Hcreate)
  end.
  cbn [Api.rooms Api.roomsCalls] in Hcalls, Hcreate.
  split; [ destruct Hstatus as [-> | ->]; discriminate | ].
  split.
  - exists rest. rewrite Hcalls, <- app_assoc. reflexivity.
  - intros HR. rewrite (Hcreate HR), createdWith_app. cbn. rewrite app_nil_r. reflexivity.
Qed.

Lemma empty_body_create_fails_recreate_proceeds_witness :
  Api.roomCreate Mem.manager BodyEmpty (Mem.holding Sim.defaults)
  = (Api.http_Error "EOF" 400, Mem.holding Sim.defaults)
  /\ Api.status (fst (Api.roomRecreate Mem.manager "room-0" BodyEmpty
                        (Mem.holding Sim.defaults))) = Some 200%N
  /\ Api.status (fst (Api.roomRecreate Mem.manager "room-0" BodyEmpty
                        (Mem.holding Sim.defaults))) <> Some 400%N
  /\ Log.createdWith
       (Api.roomsCalls (snd (Api.roomRecreate Mem.manager "room-0" BodyEmpty
                               (Mem.holding Sim.defaults))))
     = [Sim.defaults].
Proof.
  destruct (empty_body_create_fails_recreate_proceeds Mem.manager "room-0"
              (Mem.holding Sim.defaults)
              {| ID := "room-0"; Settings := Sim.defaults; Running := false;
                 EPR := zeroPortRange |}
              Sim.defaults _ _ eq_refl eq_refl)
    as (Hcreate & _ & Hnot400 & _ & Hstored).
  split; [ exact Hcreate | ].
  split; [ vm_compute; reflexivity | ].
  split; [ exact Hnot400 | exact (Hstored eq_refl) ].
Defined.

(** ** Ownership: [inspectContainer] and the operations built on it *)
Section Ownership.

Context {W : Type}.
Variable client : Client W.

Lemma inspectContainer_owned (id : string) (st : Room.St W) (container : ContainerJSON)
    (w1 : W) :
  ContainerInspectWithRaw client id (Room.world st) = (Ok container, w1) ->
  ConfigLabels container !! "m1k1o.neko_rooms.canary" = Some Room.labelCanary ->
  Room.inspectContainer client id st
  = (Ok container,
     {| Room.world := w1; Room.calls := Room.calls st ++ [CallContainerInspect id] |}).
Proof.
  intros HI HL.
  unfold Room.inspectContainer, Room.client_ContainerInspectWithRaw, Room.logged.
  rewrite HI, HL, String.eqb_refl. reflexivity.
Qed.

Lemma inspectContainer_unowned (id : string) (st : Room.St W) (container : ContainerJSON)
    (w1 : W) :
  ContainerInspectWithRaw client id (Room.world st) = (Ok container, w1) ->
  ConfigLabels container !! "m1k1o.neko_rooms.canary" <> Some Room.labelCanary ->
  Room.inspectContainer client id st
  = (Err (errorString "This container does not belong to neko_rooms."),
     {| Room.world := w1; Room.calls := Room.calls st ++ [CallContainerInspect id] |}).
Proof.
  intros HI HL.
  unfold Room.inspectContainer, Room.client_ContainerInspectWithRaw, Room.logged.
  rewrite HI.
  destruct (ConfigLabels container !! "m1k1o.neko_rooms.canary") as [val | ]; [ | reflexivity ].
  destruct (String.eqb val Room.labelCanary) eqn:Hval; [ | reflexivity ].
  apply String.eqb_eq in Hval. congruence.
Qed.

(** The loops of [listContainers] and [List], as a filter and a map. *)
Lemma listContainers_loop_filter (containers result : list Container) :
  Room.listContainers_loop containers result = result ++ List.filter Spec.owned containers.
Proof.
  revert result. induction containers as [ | c rest IH]; intros result.
  - cbn. rewrite app_nil_r. reflexivity.
  - cbn [Room.listContainers_loop List.filter]. unfold Spec.owned at 1.
    destruct (ContainerLabels c !! "m1k1o.neko_rooms.canary") as [val | ]; [ | apply IH ].
    destruct (String.eqb val Room.labelCanary); [ | apply IH ].
    rewrite IH, <- app_assoc. reflexivity.
Qed.

Lemma List_loop_map (containers : list Container) (result : list RoomData) :
  Room.List_loop containers result
  = result ++ map (fun c => {| ID := ContainerID c; Settings := zeroSettings;
                               Running := false; EPR := zeroPortRange |}) containers.
Proof.
  revert result. induction containers as [ | c rest IH]; intros result.
  - cbn. rewrite app_nil_r. reflexivity.
  - cbn [Room.List_loop map]. rewrite IH, <- app_assoc. reflexivity.
Qed.

End Ownership.

(** C2, amended.  A unit the runtime knows but that lacks the canary label
    (or carries another value) is refused with a generic error, not with
    [ErrRoomNotFound]: [inspectContainer], and with it [Get], [Update] and
    [Remove], return the error "This container does not belong to
    neko_rooms." after the one inspection; [errors.Is] does not take it
    for [ErrRoomNotFound], so [roomGetEntry], over any manager whose
    [GetEntry] is the engine's [Get], answers 500, not 404. *)
Theorem unowned_unit_is_a_generic_error {W : Type} (client : Client W)
    (M : Api.RoomManager (Room.St W))
    (id : string) (settings : RoomSettings) (st : Room.St W)
    (container : ContainerJSON) (w1 : W) (log : list Api.RoomsCall) :
  ContainerInspectWithRaw client id (Room.world st) = (Ok container, w1) ->
  ConfigLabels container !! "m1k1o.neko_rooms.canary" <> Some Room.labelCanary ->
  (forall i s, Api.GetEntry M i s = Room.Get client i s) ->
  let err := errorString "This container does not belong to neko_rooms." in
  let st1 := {| Room.world := w1; Room.calls := Room.calls st ++ [CallContainerInspect id] |} in
  Room.inspectContainer client id st = (Err err, st1)
  /\ Room.Get client id st = (Err err, st1)
  /\ Room.Update client id settings st = (Some err, st1)
  /\ Room.Remove client id st = (Some err, st1)
  /\ errors_Is err ErrRoomNotFound = false
  /\ Api.roomGetEntry M id {| Api.rooms := st; Api.roomsCalls := log |}
     = (Api.http_Error "This container does not belong to neko_rooms." 500,
        {| Api.rooms := st1; Api.roomsCalls := log ++ [Api.CallGetEntry id] |}).
Proof.
  intros HI HL HM err st1.
  pose proof (inspectContainer_unowned client id st container w1 HI HL) as H.
  fold err st1 in H.
  assert (HG : Room.Get client id st = (Err err, st1))
    by (unfold Room.Get; rewrite H; reflexivity).
  split; [ exact H | ].
  split; [ exact HG | ].
  split; [ unfold Room.Update; rewrite H; reflexivity | ].
  split; [ unfold Room.Remove; rewrite H; reflexivity | ].
  split; [ reflexivity | ].
  unfold Api.roomGetEntry, Api.rooms_GetEntry, Api.invoked.
  cbn [Api.rooms Api.roomsCalls]. rewrite HM, HG. reflexivity.
Qed.

Lemma unowned_unit_is_a_generic_error_witness :
  let err := errorString "This container does not belong to neko_rooms." in
  (exists container,
     ContainerInspectWithRaw Sim.client "db-0" (Room.world Sim.stranger)
     = (Ok container, Room.world Sim.stranger)
     /\ ConfigLabels container !! "m1k1o.neko_rooms.canary" = None)
  /\ fst (Room.Get Sim.client "db-0" Sim.stranger) = Err err
  /\ fst (Room.Remove Sim.client "db-0" Sim.stranger) = Some err
  /\ Room.calls (snd (Room.Remove Sim.client "db-0" Sim.stranger))
     = [CallContainerInspect "db-0"]
  /\ fst (Api.roomGetEntry Sim.lookup "db-0"
            {| Api.rooms := Sim.stranger; Api.roomsCalls := [] |})
     = Api.http_Error "This container does not belong to neko_rooms." 500.
Proof.
  cbv zeta.
  assert (HL : Labels (Sim.unitConfig
                         {| Sim.unitID := "db-0"; Sim.unitName := "database";
                            Sim.unitConfig :=
                              {| Hostname := "database"; Domainname := ""; ExposedPorts := ∅;
                                 Env := []; Image := "postgres:16";
                                 Labels := {["com.example.role" := "database"]} |};
                            Sim.unitHostConfig := Room.hostConfig;
                            Sim.unitState := Sim.UnitRunning |})
                !! "m1k1o.neko_rooms.canary" = (None : option string))
    by (vm_compute; reflexivity).
  destruct (unowned_unit_is_a_generic_error Sim.client Sim.lookup "db-0"
              zeroSettings Sim.stranger _ _ [] eq_refl
              (fun H => eq_ind None (fun o => match o with
                                              | None => True
                                              | Some _ => False
                                              end) I _ (eq_trans (eq_sym HL) H))
              (fun _ _ => eq_refl))
    as (_ & HG & _ & HR & _ & HE).
  split; [ eexists; split; [ reflexivity | exact HL ] | ].
  split; [ rewrite HG; reflexivity | ].
  split; [ rewrite HR; reflexivity | ].
  split; [ rewrite HR; reflexivity | ].
  exact (f_equal fst HE).
Defined.

(** C2, counterexample.  The runtime knows the unit ["db-0"], which has no
    canary label; [Get] fails with an error that is not [ErrRoomNotFound],
    and the handler answers 500, not 404. *)
Lemma unowned_unit_counterexample :
  fst (ContainerInspectWithRaw Sim.client "db-0" (Room.world Sim.stranger))
  = Ok {| JSONID := "db-0"; ConfigLabels := {["com.example.role" := "database"]};
          StateRunning := true |}
  /\ fst (Room.Get Sim.client "db-0" Sim.stranger)
     = Err (errorString "This container does not belong to neko_rooms.")
  /\ fst (Room.Get Sim.client "db-0" Sim.stranger) <> Err ErrRoomNotFound
  /\ Api.status (fst (Api.roomGetEntry Sim.lookup "db-0"
                        {| Api.rooms := Sim.stranger; Api.roomsCalls := [] |}))
     = Some 500%N.
Proof.
  split; [ vm_compute; reflexivity | ].
  split; [ vm_compute; reflexivity | ].
  split; [ vm_compute; discriminate | vm_compute; reflexivity ].
Qed.

(** C7, amended.  A read builds room data that carries the unit's
    identifier and nothing else.  The value [Get] returns for an id has
    that id, the zero settings, [Running = false] and the zero port range,
    whatever the unit's labels and state; [List] returns one such value for
    each listed unit that carries the canary, in the order of the
    runtime's listing. *)
Theorem reads_carry_only_the_id {W : Type} (client : Client W) (id : string)
    (st st1 st2 : Room.St W) (data : RoomData) (listed : list RoomData) :
  Room.Get client id st = (Ok data, st1) ->
  Room.List client st = (Ok listed, st2) ->
  data = {| ID := id; Settings := zeroSettings; Running := false; EPR := zeroPortRange |}
  /\ exists containers,
       fst (ContainerList client (Room.world st)) = Ok containers
       /\ listed
          = map (fun c => {| ID := ContainerID c; Settings := zeroSettings;
                             Running := false; EPR := zeroPortRange |})
              (List.filter Spec.owned containers).
Proof.
  intros HG HL. split.
  - unfold Room.Get in HG.
    destruct (Room.inspectContainer client id st) as [[c | e] s1]; [ | discriminate ].
    injection HG as <- _. reflexivity.
  - unfold Room.List, Room.listContainers, Room.client_ContainerList, Room.logged in HL.
    destruct (ContainerList client (Room.world st)) as [[containers | e] w1];
      [ | discriminate ].
    exists containers. split; [ reflexivity | ].
    injection HL as <- _.
    rewrite List_loop_map, listContainers_loop_filter. reflexivity.
Qed.

Lemma reads_carry_only_the_id_witness :
  let bare :=
    {| ID := "unit-0"; Settings := zeroSettings; Running := false; EPR := zeroPortRange |} in
  fst (Room.Get Sim.client "unit-0" Sim.oneRoom) = Ok bare
  /\ fst (Room.List Sim.client Sim.oneRoom) = Ok [bare]
  /\ exists containers,
       fst (ContainerList Sim.client (Room.world Sim.oneRoom)) = Ok containers
       /\ [bare]
          = map (fun c => {| ID := ContainerID c; Settings := zeroSettings;
                             Running := false; EPR := zeroPortRange |})
              (List.filter Spec.owned containers).
Proof.
  cbv zeta.
  assert (HG : Room.Get Sim.client "unit-0" Sim.oneRoom
               = (Ok {| ID := "unit-0"; Settings := zeroSettings; Running := false;
                        EPR := zeroPortRange |},
                  snd (Room.Get Sim.client "unit-0" Sim.oneRoom)))
    by (vm_compute; reflexivity).
  assert (HL : Room.List Sim.client Sim.oneRoom
               = (Ok [{| ID := "unit-0"; Settings := zeroSettings; Running := false;
                         EPR := zeroPortRange |}],
                  snd (Room.List Sim.client Sim.oneRoom)))
    by (vm_compute; reflexivity).
  split; [ rewrite HG; reflexivity | ].
  split; [ rewrite HL; reflexivity | ].
  exact (proj2 (reads_carry_only_the_id Sim.client "unit-0" Sim.oneRoom _ _ _ _ HG HL)).
Defined.

(** C7, counterexample.  The room was created with the default settings
    (ten connections), is running, and carries the label
    [epr = "52135-52145"]; what [Get] and [List] return for it has the
    zero settings, [Running = false] and the zero port range. *)
Lemma reads_drop_settings_and_state_counterexample :
  fst (Room.Create Sim.client Sim.config Sim.settings_Env Sim.defaults Sim.start)
  = Ok {| ID := "unit-0"; Settings := Sim.defaults; Running := false; EPR := zeroPortRange |}
  /\ MaxConnections Sim.defaults = 10%N
  /\ Sim.stateOf "unit-0" (Room.world Sim.oneRoom) = Some Sim.UnitRunning
  /\ Spec.liveClaims Sim.client (Room.world Sim.oneRoom)
     = [{| PortStart := 52135; PortEnd := 52145 |}]
  /\ fst (Room.Get Sim.client "unit-0" Sim.oneRoom)
     = Ok {| ID := "unit-0"; Settings := zeroSettings; Running := false;
             EPR := zeroPortRange |}
  /\ fst (Room.List Sim.client Sim.oneRoom)
     = Ok [{| ID := "unit-0"; Settings := zeroSettings; Running := false;
              EPR := zeroPortRange |}]
  /\ zeroSettings <> Sim.defaults.
Proof.
  repeat split; try (vm_compute; reflexivity). vm_compute; discriminate.
Qed.

(** C10.  [Update] on an owned unit succeeds and changes nothing: it
    returns no error, the one call it makes is the inspection (which is
    not a mutating call), the runtime is left as the inspection left it,
    and the settings it was given play no part in the outcome. *)
Theorem update_changes_nothing {W : Type} (client : Client W) (id : string)
    (settings : RoomSettings) (st : Room.St W) (container : ContainerJSON) (w1 : W) :
  ContainerInspectWithRaw client id (Room.world st) = (Ok container, w1) ->
  ConfigLabels container !! "m1k1o.neko_rooms.canary" = Some Room.labelCanary ->
  Room.Update client id settings st
  = (None, {| Room.world := w1; Room.calls := Room.calls st ++ [CallContainerInspect id] |})
  /\ forallb (fun c => negb (mutating c)) [CallContainerInspect id] = true
  /\ forall other, Room.Update client id other st = Room.Update client id settings st.
Proof.
  intros HI HL.
  pose proof (inspectContainer_owned client id st container w1 HI HL) as H.
  split; [ unfold Room.Update; rewrite H; reflexivity | ].
  split; reflexivity.
Qed.

Lemma update_changes_nothing_witness :
  (exists container,
     ContainerInspectWithRaw Sim.client "unit-0" (Room.world Sim.oneRoom)
     = (Ok container, Room.world Sim.oneRoom)
     /\ ConfigLabels container !! "m1k1o.neko_rooms.canary" = Some Room.labelCanary)
  /\ Room.Update Sim.client "unit-0" Sim.defaults Sim.oneRoom
     = (None, {| Room.world := Room.world Sim.oneRoom;
                 Room.calls := Room.calls Sim.oneRoom ++ [CallContainerInspect "unit-0"] |}).
Proof.
  assert (HL : ConfigLabels
                 {| JSONID := "unit-0";
                    ConfigLabels := Room.labels Sim.config;
                    StateRunning := true |}
               !! "m1k1o.neko_rooms.canary" = Some Room.labelCanary)
    by (vm_compute; reflexivity).
  assert (HI : ContainerInspectWithRaw Sim.client "unit-0" (Room.world Sim.oneRoom)
               = (Ok {| JSONID := "unit-0";
                        ConfigLabels := Room.labels Sim.config;
                        StateRunning := true |}, Room.world Sim.oneRoom))
    by (vm_compute; reflexivity).
  split; [ eexists; split; [ exact HI | exact HL ] | ].
  exact (proj1 (update_changes_nothing Sim.client "unit-0" Sim.defaults Sim.oneRoom _ _ HI HL)).
Defined.

(** ** The label filter of [roomsList] *)

Lemma roomsList_loop_rejects (CheckLabelKey : string -> bool)
    (mapToLower : string -> string) (query : Api.Query) (labelsMap : gmap string string) :
  Exists (fun kv => CheckLabelKey (ToLower mapToLower (fst kv)) = false) query ->
  Api.roomsList_loop CheckLabelKey mapToLower query labelsMap = None.
Proof.
  intros H. revert labelsMap.
  induction H as [[key [value0 others]] rest Hbad | [key [value0 others]] rest _ IH];
    intros labelsMap; cbn [Api.roomsList_loop fst] in *.
  - rewrite Hbad. reflexivity.
  - destruct (CheckLabelKey (ToLower mapToLower key)); [ apply IH | reflexivity ].
Qed.

Lemma roomsList_loop_accepts (CheckLabelKey : string -> bool)
    (mapToLower : string -> string) (query : Api.Query) (labelsMap : gmap string string) :
  Forall (fun kv => CheckLabelKey (ToLower mapToLower (fst kv)) = true) query ->
  exists labels,
    Api.roomsList_loop CheckLabelKey mapToLower query labelsMap = Some labels
    /\ dom labels
       = dom labelsMap ∪ list_to_set (map (fun kv => ToLower mapToLower (fst kv)) query).
Proof.
  intros H. revert labelsMap.
  induction H as [ | [key [value0 others]] rest Hok _ IH]; intros labelsMap.
  - exists labelsMap. split; [ reflexivity | ]. cbn. set_solver.
  - cbn [Api.roomsList_loop fst] in *. rewrite Hok. cbn [negb].
    destruct (IH (<[ToLower mapToLower key := value0]> labelsMap)) as (labels & Hloop & Hdom).
    exists labels. split; [ exact Hloop | ].
    rewrite Hdom, dom_insert_L. cbn [map list_to_set fst]. set_solver.
Qed.

Lemma labelChar_lower (c : ascii) : Sim.labelChar (lower c) = Sim.foldedLabelChar c.
Proof.
  destruct c as [[] [] [] [] [] [] [] []]; vm_compute; reflexivity.
Qed.

(** On a key of ASCII characters the check of the lower-cased key is the
    check of the characters up to case. *)
Lemma CheckLabelKey_lowerASCII (key : string) :
  Sim.CheckLabelKey (lowerASCII key) = forallb Sim.foldedLabelChar (list_ascii_of_string key).
Proof.
  induction key as [ | c rest IH]; [ reflexivity | ].
  cbn [lowerASCII Sim.CheckLabelKey list_ascii_of_string forallb].
  rewrite labelChar_lower, IH. reflexivity.
Qed.

(** C8, amended.  [roomsList] checks the lower-cased key.  For any room
    manager, any validator and whatever [strings.ToLower] does to the
    characters outside ASCII: when the lower-cased form of some key of the
    query fails the check, the handler answers 400 with the text
    "invalid label name, allowed characters: [a-z0-9.-]" and leaves the
    manager and its call log untouched.  Upper case letters are no reason
    to reject: when every lower-cased key passes, the manager's [List] is
    called with exactly the lower-cased keys; and with the validator of the
    specification a key of ASCII characters fails just when it has a
    character that is neither a letter of either case, a digit, a dot nor
    a dash. *)
Theorem rooms_list_rejects_invalid_key {S : Type} (M : Api.RoomManager S)
    (CheckLabelKey : string -> bool) (mapToLower : string -> string)
    (query : Api.Query) (st : Api.ApiSt S) :
  Exists (fun kv => CheckLabelKey (ToLower mapToLower (fst kv)) = false) query ->
  Api.roomsList M CheckLabelKey mapToLower query st
  = (Api.http_Error "invalid label name, allowed characters: [a-z0-9.-]" 400, st)
  /\ (forall accepted : Api.Query,
        Forall (fun kv => CheckLabelKey (ToLower mapToLower (fst kv)) = true) accepted ->
        exists labels,
          Api.roomsCalls (snd (Api.roomsList M CheckLabelKey mapToLower accepted st))
          = Api.roomsCalls st ++ [Api.CallList labels]
          /\ dom labels
             = list_to_set (map (fun kv => ToLower mapToLower (fst kv)) accepted))
  /\ (forall key,
        isASCII key = true ->
        Sim.CheckLabelKey (ToLower mapToLower key)
        = forallb Sim.foldedLabelChar (list_ascii_of_string key)).
Proof.
  intros Hbad. split; [ | split ].
  - unfold Api.roomsList. rewrite (roomsList_loop_rejects _ _ _ _ Hbad). reflexivity.
  - intros accepted Hok.
    destruct (roomsList_loop_accepts CheckLabelKey mapToLower accepted ∅ Hok)
      as (labels & Hloop & Hdom).
    exists labels. unfold Api.roomsList. rewrite Hloop.
    unfold Api.rooms_List, Api.invoked.
    destruct (Api.List M labels (Api.rooms st)) as [[response | e] s1];
      (split; [ reflexivity | rewrite Hdom; set_solver ]).
  - intros key Hascii. unfold ToLower. rewrite Hascii. apply CheckLabelKey_lowerASCII.
Qed.

Lemma rooms_list_rejects_invalid_key_witness :
  Sim.CheckLabelKey (ToLower Sim.mapToLower "room name") = false
  /\ Api.roomsList Mem.manager Sim.CheckLabelKey Sim.mapToLower
       [("app", ("neko", [])); ("room name", ("x", []))] (Mem.holding Sim.defaults)
     = (Api.http_Error "invalid label name, allowed characters: [a-z0-9.-]" 400,
        Mem.holding Sim.defaults).
Proof.
  split; [ reflexivity | ].
  refine (proj1 (rooms_list_rejects_invalid_key Mem.manager Sim.CheckLabelKey Sim.mapToLower
                   [("app", ("neko", [])); ("room name", ("x", []))]
                   (Mem.holding Sim.defaults) _)).
  apply Exists_cons_tl, Exists_cons_hd. reflexivity.
Defined.

(** C8, counterexample.  The validator rejects the key ["ABC"], which has
    upper case letters, yet a query with this key is not answered with
    400: the handler calls [List] with the key ["abc"] and answers 200.
    The same holds for a key outside ASCII that [strings.ToLower] maps
    into the class, the Kelvin sign: the validator rejects it, the handler
    lists with the key ["k"]. *)
Lemma uppercase_key_counterexample :
  Sim.CheckLabelKey "ABC" = false
  /\ (let '(response, st) :=
        Api.roomsList Mem.manager Sim.CheckLabelKey Sim.mapToLower [("ABC", ("x", []))]
          (Mem.holding Sim.defaults) in
      Api.status response = Some 200%N
      /\ Api.roomsCalls st = [Api.CallList {["abc" := "x"]}])
  /\ Sim.CheckLabelKey Sim.kelvin = false
  /\ (let '(response, st) :=
        Api.roomsList Mem.manager Sim.CheckLabelKey Sim.mapToLower [(Sim.kelvin, ("x", []))]
          (Mem.holding Sim.defaults) in
      Api.status response = Some 200%N
      /\ Api.roomsCalls st = [Api.CallList {["k" := "x"]}]).
Proof.
  split; [ reflexivity | ].
  split; [ vm_compute; repeat split; reflexivity | ].
  split; [ reflexivity | ].
  vm_compute. repeat split; reflexivity.
Qed.

(** ** Recreate and the running flag *)

(** The manager of [Mem] keeps the contract the handlers rely on: a room
    just created does not run, a started room runs, and reading an entry
    changes nothing. *)
Lemma Mem_created_stopped (settings : RoomSettings) (m m' : Mem.Rooms) (id : string) :
  Api.Create Mem.manager settings m = (Ok id, m') -> Mem.isRunning m' id = false.
Proof.
  cbn [Api.Create Mem.manager]. unfold Mem.memCreate. intros [= <- <-].
  unfold Mem.isRunning. cbn [Mem.entries]. rewrite lookup_insert_eq. reflexivity.
Qed.

Lemma Mem_started_runs (id : string) (m m' : Mem.Rooms) :
  Api.Start Mem.manager id m = (None, m') -> Mem.isRunning m' id = true.
Proof.
  cbn [Api.Start Mem.manager]. unfold Mem.memStart.
  destruct (Mem.entries m !! id) as [p | ]; [ | discriminate ].
  intros [= <-]. unfold Mem.isRunning. cbn [Mem.entries]. rewrite lookup_insert_eq.
  reflexivity.
Qed.

Lemma Mem_read_keeps (id : string) (m : Mem.Rooms) :
  snd (Api.GetEntry Mem.manager id m) = m.
Proof.
  cbn [Api.GetEntry Mem.manager]. unfold Mem.memGetEntry.
  destruct (Mem.entries m !! id); reflexivity.
Qed.

(** C4.  Recreate preserves the running flag.  For any room manager, when
    the room is found, its settings are read, the body is accepted, the
    old room is removed and [Create] returns the new room's id: the
    handler calls [Start] exactly when the entry it read at the beginning
    was running, and then on the new id and nothing else; for a room that
    was stopped the manager is left as [Create] left it, read once; for a
    room that was running a 200 answer means that [Start] has succeeded on
    the new room.  So with a manager whose [Create] leaves the new room
    stopped, whose [Start] makes a room run and whose [GetEntry] only
    reads, after a 200 answer the new room runs if and only if the old
    one did. *)
Theorem recreate_preserves_running {S : Type} (M : Api.RoomManager S) (roomId : string)
    (body : Body) (st : Api.ApiSt S) (entry : RoomData) (stored settings : RoomSettings)
    (decoded : option error) (st1 st2 st3 st4 : S) (ID : string) :
  Api.GetEntry M roomId (Api.rooms st) = (Ok entry, st1) ->
  Api.GetSettings M roomId st1 = (Ok stored, st2) ->
  DecodePtr body (Some stored) = (Some settings, decoded) ->
  decoded = None \/ decoded = Some EOF ->
  Api.Remove M roomId st2 = (None, st3) ->
  Api.Create M settings st3 = (Ok ID, st4) ->
  let r := Api.roomRecreate M roomId body st in
  (exists rest,
     Api.roomsCalls (snd r)
     = Api.roomsCalls st
         ++ [Api.CallGetEntry roomId; Api.CallGetSettings roomId; Api.CallRemove roomId;
             Api.CallCreate settings]
         ++ rest
     /\ (forall id, In (Api.CallStart id) rest <-> Running entry = true /\ id = ID)
     /\ Log.createdWith rest = []
     /\ forall id, ~ In (Api.CallRemove id) rest)
  /\ (Running entry = false -> Api.rooms (snd r) = snd (Api.GetEntry M ID st4))
  /\ (Running entry = true ->
      Api.status (fst r) = Some 200%N ->
      exists st5,
        Api.Start M ID st4 = (None, st5)
        /\ Api.rooms (snd r) = snd (Api.GetEntry M ID st5))
  /\ (forall running : S -> string -> bool,
        (forall s id s', Api.Create M settings s = (Ok id, s') -> running s' id = false) ->
        (forall id s s', Api.Start M id s = (None, s') -> running s' id = true) ->
        (forall id s, running (snd (Api.GetEntry M id s)) id = running s id) ->
        Api.status (fst r) = Some 200%N ->
        running (Api.rooms (snd r)) ID = Running entry).
Proof.
  intros HE HS HD Hdec HR HC r. subst r.
  rewrite (roomRecreate_decoded M roomId body st entry stored st1 st2 (Some settings) decoded
             HE HS HD Hdec).
  unfold Api.roomRecreate_replace, Api.rooms_Remove, Api.rooms_Create, Api.invoked.
  cbn [Api.rooms Api.roomsCalls]. rewrite HR. cbn [Api.rooms Api.roomsCalls]. rewrite HC.
  unfold Api.roomRecreate_finish, Api.rooms_Start, Api.rooms_GetEntry, Api.invoked.
  rewrite <- !app_assoc. cbn [app].
  destruct (Running entry) eqn:Hrun; cbn [Api.rooms Api.roomsCalls].
  - destruct (Api.Start M ID st4) as [[err | ] st5] eqn:Hstart; cbn [Api.rooms Api.roomsCalls].
    + split; [ | split; [ discriminate | split; [ discriminate | ] ] ].
      * exists [Api.CallStart ID]. rewrite <- !app_assoc. cbn [app fst snd Api.roomsCalls].
        split; [ reflexivity | ]. split; [ | split; [ reflexivity | ] ].
        -- intros id. cbn [In]. split.
           ++ intros [[= <-] | []]. auto.
           ++ intros [_ ->]. left. reflexivity.
        -- intros id [H | []]. discriminate.
      * intros running _ _ _. discriminate.
    + destruct (Api.GetEntry M ID st5) as [[response | err] st6] eqn:Hget;
        cbn [fst snd Api.rooms Api.roomsCalls Api.status].
      * split; [ | split; [ discriminate | split ] ].
        -- exists [Api.CallStart ID; Api.CallGetEntry ID]. rewrite <- !app_assoc.
           cbn [app]. split; [ reflexivity | ]. split; [ | split; [ reflexivity | ] ].
           ++ intros id. cbn [In]. split.
              ** intros [[= <-] | [H | []]]; [ auto | discriminate ].
              ** intros [_ ->]. left. reflexivity.
           ++ intros id [H | [H | []]]; discriminate.
        -- intros _ _. exists st5. rewrite Hget. split; reflexivity.
        -- intros running Hcreate Hstarted Hread _.
           pose proof (Hread ID st5) as Hkeep. rewrite Hget in Hkeep. cbn [snd] in Hkeep.
           rewrite Hkeep. apply (Hstarted ID st4 st5 Hstart).
      * split; [ | split; [ discriminate | split ] ].
        -- exists [Api.CallStart ID; Api.CallGetEntry ID]. rewrite <- !app_assoc.
           cbn [app]. split; [ reflexivity | ]. split; [ | split; [ reflexivity | ] ].
           ++ intros id. cbn [In]. split.
              ** intros [[= <-] | [H | []]]; [ auto | discriminate ].
              ** intros [_ ->]. left. reflexivity.
           ++ intros id [H | [H | []]]; discriminate.
        -- intros _. discriminate.
        -- intros running _ _ _. discriminate.
  - destruct (Api.GetEntry M ID st4) as [[response | err] st5] eqn:Hget;
      cbn [fst snd Api.rooms Api.roomsCalls Api.status].
    + split; [ | split; [ reflexivity | split; [ discriminate | ] ] ].
      * exists [Api.CallGetEntry ID]. rewrite <- !app_assoc. cbn [app].
        split; [ reflexivity | ]. split; [ | split; [ reflexivity | ] ].
        -- intros id. cbn [In]. split.
           ++ intros [H | []]. discriminate.
           ++ intros [H _]. discriminate.
        -- intros id [H | []]. discriminate.
      * intros running Hcreate _ Hread _.
        pose proof (Hread ID st4) as Hkeep. rewrite Hget in Hkeep. cbn [snd] in Hkeep.
        rewrite Hkeep. apply (Hcreate st3 ID st4 HC).
    + split; [ | split; [ reflexivity | split; [ discriminate | ] ] ].
      * exists [Api.CallGetEntry ID]. rewrite <- !app_assoc. cbn [app].
        split; [ reflexivity | ]. split; [ | split; [ reflexivity | ] ].
        -- intros id. cbn [In]. split.
           ++ intros [H | []]. discriminate.
           ++ intros [H _]. discriminate.
        -- intros id [H | []]. discriminate.
      * intros running _ _ _. discriminate.
Qed.

Lemma recreate_preserves_running_witness :
  let stopped := Api.roomRecreate Mem.manager "room-0" BodyEmpty (Mem.holding Sim.defaults) in
  let running := Api.roomRecreate Mem.manager "room-0" BodyEmpty (Mem.serving Sim.defaults) in
  (Api.status (fst stopped) = Some 200%N
   /\ Mem.isRunning (Api.rooms (snd stopped)) "room-1" = false
   /\ Mem.entries (Api.rooms (snd stopped)) !! "room-0" = None)
  /\ (Api.status (fst running) = Some 200%N
      /\ Mem.isRunning (Api.rooms (snd running)) "room-1" = true
      /\ Mem.entries (Api.rooms (snd running)) !! "room-0" = None).
Proof.
  cbv zeta. split.
  - destruct (recreate_preserves_running Mem.manager "room-0" BodyEmpty
                (Mem.holding Sim.defaults)
                {| ID := "room-0"; Settings := Sim.defaults; Running := false;
                   EPR := zeroPortRange |}
                Sim.defaults Sim.defaults (Some EOF) _ _ _ _ "room-1"
                eq_refl eq_refl eq_refl (or_intror eq_refl) eq_refl eq_refl)
      as (_ & _ & _ & Hkeeps).
    assert (H200 : Api.status (fst (Api.roomRecreate Mem.manager "room-0" BodyEmpty
                                      (Mem.holding Sim.defaults))) = Some 200%N)
      by (vm_compute; reflexivity).
    split; [ exact H200 | ].
    split; [ | vm_compute; reflexivity ].
    exact (Hkeeps Mem.isRunning
             (fun s id s' => Mem_created_stopped Sim.defaults s s' id)
             Mem_started_runs
             (fun id s => f_equal (fun m => Mem.isRunning m id) (Mem_read_keeps id s))
             H200).
  - destruct (recreate_preserves_running Mem.manager "room-0" BodyEmpty
                (Mem.serving Sim.defaults)
                {| ID := "room-0"; Settings := Sim.defaults; Running := true;
                   EPR := zeroPortRange |}
                Sim.defaults Sim.defaults (Some EOF) _ _ _ _ "room-1"
                eq_refl eq_refl eq_refl (or_intror eq_refl) eq_refl eq_refl)
      as (_ & _ & _ & Hkeeps).
    assert (H200 : Api.status (fst (Api.roomRecreate Mem.manager "room-0" BodyEmpty
                                      (Mem.serving Sim.defaults))) = Some 200%N)
      by (vm_compute; reflexivity).
    split; [ exact H200 | ].
    split; [ | vm_compute; reflexivity ].
    exact (Hkeeps Mem.isRunning
             (fun s id s' => Mem_created_stopped Sim.defaults s s' id)
             Mem_started_runs
             (fun id s => f_equal (fun m => Mem.isRunning m id) (Mem_read_keeps id s))
             H200).
Defined.

(** * Further properties *)

(** ** [Room.Set]: the pool of ephemeral ports *)

Lemma SplitN_dashFree (s : string) :
  Flags.dashFree s = true -> Flags.SplitN s = [s].
Proof.
  induction s as [ | c rest IH]; [ reflexivity | ].
  unfold Flags.dashFree. cbn [list_ascii_of_string forallb Flags.SplitN].
  intros [Hc Hrest]%andb_prop. apply negb_true_iff in Hc. rewrite Hc.
  rewrite (IH Hrest). reflexivity.
Qed.

Lemma SplitN_dash (x y : string) :
  Flags.dashFree x = true ->
  Flags.SplitN (x +:+ "-" +:+ y) = x :: Flags.SplitN y.
Proof.
  induction x as [ | c rest IH]; [ reflexivity | ].
  unfold Flags.dashFree. cbn [list_ascii_of_string forallb].
  intros [Hc Hrest]%andb_prop. apply negb_true_iff in Hc.
  change (String c rest +:+ "-" +:+ y) with (String c (rest +:+ "-" +:+ y)).
  cbn [Flags.SplitN]. rewrite Hc, (IH Hrest). reflexivity.
Qed.

Lemma digits_dashFree (s : string) (d : Decimal.uint) :
  NilEmpty.uint_of_string s = Some d -> Flags.dashFree s = true.
Proof.
  revert d. induction s as [ | c rest IH]; intros d; [ reflexivity | ].
  cbn [NilEmpty.uint_of_string]. unfold Flags.dashFree.
  cbn [list_ascii_of_string forallb].
  destruct (NilEmpty.uint_of_string rest) as [d' | ] eqn:Hrest; [ | discriminate ].
  intros H. apply andb_true_intro. split; [ | exact (IH d' eq_refl) ].
  apply negb_true_iff. destruct (Ascii.eqb_spec c "-"%char) as [-> | ]; [ | reflexivity ].
  discriminate.
Qed.

Lemma to_uint_not_Nil (n : N) : N.to_uint n <> Decimal.Nil.
Proof.
  intros H. pose proof (Unsigned.of_to n) as Hn. rewrite H in Hn. cbn in Hn. subst n.
  discriminate.
Qed.

Lemma itoa_digits (n : N) : NilZero.uint_of_string (itoa n) = Some (N.to_uint n).
Proof. apply NilZero.usu, to_uint_not_Nil. Qed.

Lemma itoa_dashFree (n : N) : Flags.dashFree (itoa n) = true.
Proof.
  apply (digits_dashFree _ (N.to_uint n)).
  pose proof (itoa_digits n) as H. unfold NilZero.uint_of_string in H.
  destruct (itoa n); [ discriminate | exact H ].
Qed.

(** What [Sprintf("%d")] prints, [ParseUint] reads back, as long as it
    fits 16 bits. *)
Lemma ParseUint_itoa (n : N) :
  Flags.ParseUint (itoa n) = if (n <=? 65535)%N then Some n else None.
Proof.
  unfold Flags.ParseUint. rewrite itoa_digits, Unsigned.of_to. reflexivity.
Qed.

(** The pool [Set] computes, as a pair. *)
Lemma Room_Set_pool (v : Flags.Viper) (GetIP : result string) (ports0 ports1 : string)
    (others : list string) :
  Flags.SplitN (Flags.epr v) = ports0 :: ports1 :: others ->
  let lo := default 59000%N (Flags.ParseUint ports0) in
  let hi := default 59100%N (Flags.ParseUint ports1) in
  Config.EphemeralMin (Flags.Room_Set v GetIP) = N.min lo hi
  /\ Config.EphemeralMax (Flags.Room_Set v GetIP) = N.max lo hi.
Proof.
  intros Hsplit lo hi. subst lo hi. unfold Flags.Room_Set. rewrite Hsplit.
  destruct (Flags.ParseUint ports0) as [lo | ], (Flags.ParseUint ports1) as [hi | ];
    cbn [default from_option id];
    match goal with
    | |- context [(?a <? ?b)%N] => destruct (a <? b)%N eqn:Hcmp
    end;
    cbn [Config.EphemeralMin Config.EphemeralMax];
    first [ apply N.ltb_lt in Hcmp; rewrite N.min_r, N.max_l by lia
          | apply N.ltb_ge in Hcmp; rewrite N.min_l, N.max_r by lia ];
    split; reflexivity.
Qed.

(** X1.  Whatever the flags hold, the pool [Set] stores is ordered:
    [EphemeralMin <= EphemeralMax]. *)
Theorem set_pool_is_ordered (v : Flags.Viper) (GetIP : result string) :
  (Config.EphemeralMin (Flags.Room_Set v GetIP)
   <= Config.EphemeralMax (Flags.Room_Set v GetIP))%N.
Proof.
  destruct (Flags.SplitN (Flags.epr v)) as [ | ports0 [ | ports1 others]] eqn:Hsplit.
  - unfold Flags.Room_Set. rewrite Hsplit. cbn. lia.
  - unfold Flags.Room_Set. rewrite Hsplit. cbn. lia.
  - destruct (Room_Set_pool v GetIP ports0 ports1 others Hsplit) as [-> ->].
    apply N.le_trans with (default 59000%N (Flags.ParseUint ports0));
      [ apply N.le_min_l | apply N.le_max_l ].
Qed.

(** X2.  [Set] reads back a range printed as ["%d-%d"], the format of the
    engine's [epr] label: for two ports that fit 16 bits, in either order,
    the pool runs from the smaller to the larger. *)
Theorem set_reads_back_the_printed_range (v : Flags.Viper) (GetIP : result string)
    (a b : N) :
  (a <= 65535)%N ->
  (b <= 65535)%N ->
  Flags.epr v = itoa a +:+ "-" +:+ itoa b ->
  Config.EphemeralMin (Flags.Room_Set v GetIP) = N.min a b
  /\ Config.EphemeralMax (Flags.Room_Set v GetIP) = N.max a b.
Proof.
  intros Ha Hb Hepr.
  assert (Hsplit : Flags.SplitN (Flags.epr v) = [itoa a; itoa b]).
  { rewrite Hepr, (SplitN_dash _ _ (itoa_dashFree a)), (SplitN_dashFree _ (itoa_dashFree b)).
    reflexivity. }
  destruct (Room_Set_pool v GetIP _ _ _ Hsplit) as [-> ->].
  rewrite !ParseUint_itoa.
  apply N.leb_le in Ha, Hb. rewrite Ha, Hb. split; reflexivity.
Qed.

Lemma set_reads_back_the_printed_range_witness :
  Flags.epr (Flags.withEpr "59999-59000") = itoa 59999 +:+ "-" +:+ itoa 59000
  /\ Config.EphemeralMin (Flags.Room_Set (Flags.withEpr "59999-59000") (Ok "10.0.0.1"))
     = 59000%N
  /\ Config.EphemeralMax (Flags.Room_Set (Flags.withEpr "59999-59000") (Ok "10.0.0.1"))
     = 59999%N.
Proof.
  split; [ reflexivity | ].
  exact (set_reads_back_the_printed_range (Flags.withEpr "59999-59000") (Ok "10.0.0.1")
           59999 59000 ltac:(lia) ltac:(lia) eq_refl).
Defined.

(** X3.  A flag value without a dash, be it empty, one number or any other
    text, leaves the pool at 59000-59100. *)
Theorem set_without_dash_falls_back (v : Flags.Viper) (GetIP : result string) :
  Flags.dashFree (Flags.epr v) = true ->
  Config.EphemeralMin (Flags.Room_Set v GetIP) = 59000%N
  /\ Config.EphemeralMax (Flags.Room_Set v GetIP) = 59100%N.
Proof.
  intros H. unfold Flags.Room_Set. rewrite (SplitN_dashFree _ H). split; reflexivity.
Qed.

Lemma set_without_dash_falls_back_witness :
  Flags.dashFree (Flags.epr (Flags.withEpr "60000")) = true
  /\ Config.EphemeralMin (Flags.Room_Set (Flags.withEpr "60000") (Ok "10.0.0.1")) = 59000%N
  /\ Config.EphemeralMax (Flags.Room_Set (Flags.withEpr "60000") (Ok "10.0.0.1")) = 59100%N.
Proof.
  split; [ reflexivity | ].
  exact (set_without_dash_falls_back (Flags.withEpr "60000") (Ok "10.0.0.1") eq_refl).
Defined.

(** X4.  An end of the range that does not fit 16 bits is dropped, not
    clipped: with a first port that fits and a second above 65535, the pool
    runs between the first port and the fallback end 59100. *)
Theorem set_drops_a_port_out_of_range (v : Flags.Viper) (GetIP : result string)
    (a b : N) :
  (a <= 65535)%N ->
  (65535 < b)%N ->
  Flags.epr v = itoa a +:+ "-" +:+ itoa b ->
  Config.EphemeralMin (Flags.Room_Set v GetIP) = N.min a 59100
  /\ Config.EphemeralMax (Flags.Room_Set v GetIP) = N.max a 59100.
Proof.
  intros Ha Hb Hepr.
  assert (Hsplit : Flags.SplitN (Flags.epr v) = [itoa a; itoa b]).
  { rewrite Hepr, (SplitN_dash _ _ (itoa_dashFree a)), (SplitN_dashFree _ (itoa_dashFree b)).
    reflexivity. }
  destruct (Room_Set_pool v GetIP _ _ _ Hsplit) as [-> ->].
  rewrite !ParseUint_itoa.
  apply N.leb_le in Ha. apply N.leb_gt in Hb. rewrite Ha, Hb. split; reflexivity.
Qed.

Lemma set_drops_a_port_out_of_range_witness :
  Flags.epr (Flags.withEpr "60000-70000") = itoa 60000 +:+ "-" +:+ itoa 70000
  /\ Config.EphemeralMin (Flags.Room_Set (Flags.withEpr "60000-70000") (Ok "10.0.0.1"))
     = 59100%N
  /\ Config.EphemeralMax (Flags.Room_Set (Flags.withEpr "60000-70000") (Ok "10.0.0.1"))
     = 60000%N.
Proof.
  split; [ reflexivity | ].
  exact (set_drops_a_port_out_of_range (Flags.withEpr "60000-70000") (Ok "10.0.0.1")
           60000 70000 ltac:(lia) ltac:(lia) eq_refl).
Defined.

(** ** The engine: listing, removal, failed starts, unknown ids *)

Lemma owned_iff (c : Container) :
  Spec.owned c = true
  <-> ContainerLabels c !! "m1k1o.neko_rooms.canary" = Some Room.labelCanary.
Proof.
  unfold Spec.owned.
  destruct (ContainerLabels c !! "m1k1o.neko_rooms.canary") as [val | ].
  - split.
    + intros H%String.eqb_eq. congruence.
    + intros [= ->]. apply String.eqb_refl.
  - split; discriminate.
Qed.

Lemma sublist_List_filter {A : Type} (f : A -> bool) (l : list A) :
  sublist (List.filter f l) l.
Proof.
  induction l as [ | x l IH]; [ constructor | ].
  cbn. destruct (f x); [ apply sublist_skip, IH | apply sublist_cons, IH ].
Qed.

(** X5.  [listContainers] keeps ownership apart: of the containers the
    runtime lists, it returns exactly those whose canary label has the
    engine's value (a missing label or another value excludes the
    container), in the runtime's order, after the one listing call. *)
Theorem listContainers_returns_the_owned {W : Type} (client : Client W)
    (st : Room.St W) (containers : list Container) (w1 : W) :
  ContainerList client (Room.world st) = (Ok containers, w1) ->
  exists result,
    Room.listContainers client st
    = (Ok result, {| Room.world := w1; Room.calls := Room.calls st ++ [CallContainerList] |})
    /\ (forall c,
          In c result
          <-> In c containers
              /\ ContainerLabels c !! "m1k1o.neko_rooms.canary" = Some Room.labelCanary)
    /\ sublist result containers.
Proof.
  intros HL. exists (List.filter Spec.owned containers).
  split; [ | split ].
  - unfold Room.listContainers, Room.client_ContainerList, Room.logged. rewrite HL.
    rewrite listContainers_loop_filter. reflexivity.
  - intros c. rewrite filter_In, owned_iff. reflexivity.
  - apply sublist_List_filter.
Qed.

Lemma listContainers_returns_the_owned_witness :
  exists result,
    Room.listContainers Sim.client Sim.stranger
    = (Ok result, {| Room.world := Room.world Sim.stranger;
                     Room.calls := Room.calls Sim.stranger ++ [CallContainerList] |})
    /\ result = []
    /\ fst (ContainerList Sim.client (Room.world Sim.stranger))
       = Ok [{| ContainerID := "db-0";
                ContainerLabels := {["com.example.role" := "database"]} |}].
Proof.
  destruct (listContainers_returns_the_owned Sim.client Sim.stranger
              [{| ContainerID := "db-0";
                  ContainerLabels := {["com.example.role" := "database"]} |}]
              (Room.world Sim.stranger) eq_refl) as (result & Hlist & Hin & _).
  exists result. split; [ exact Hlist | ]. split; [ | reflexivity ].
  destruct result as [ | c rest]; [ reflexivity | exfalso ].
  destruct (proj1 (Hin c) (or_introl eq_refl)) as [[<- | []] Hcanary].
  vm_compute in Hcanary. discriminate.
Defined.

Section RemoveFacts.

Context {W : Type}.
Variable client : Client W.

(** X6.  [Remove] gives up when the runtime cannot stop the unit: it
    returns the runtime's error and never asks for the removal, so the
    unit stays. *)
Theorem remove_gives_up_when_stop_fails (id : string) (st : Room.St W)
    (container : ContainerJSON) (w1 w2 : W) (err : error) :
  ContainerInspectWithRaw client id (Room.world st) = (Ok container, w1) ->
  ConfigLabels container !! "m1k1o.neko_rooms.canary" = Some Room.labelCanary ->
  ContainerStop client id w1 = (Some err, w2) ->
  Room.Remove client id st
  = (Some err,
     {| Room.world := w2;
        Room.calls := Room.calls st ++ [CallContainerInspect id; CallContainerStop id] |}).
Proof.
  intros HI HL HS. unfold Room.Remove.
  rewrite (inspectContainer_owned client id st container w1 HI HL).
  unfold Room.client_ContainerStop, Room.logged. cbn [Room.world Room.calls].
  rewrite HS, <- app_assoc. reflexivity.
Qed.

(** X7.  On an owned unit that the runtime stops, [Remove] makes three
    calls in this order: the inspection, the stop, and the removal with
    [RemoveVolumes] and [Force] set; its result is the removal's. *)
Theorem remove_stops_then_removes (id : string) (st : Room.St W)
    (container : ContainerJSON) (w1 w2 : W) :
  ContainerInspectWithRaw client id (Room.world st) = (Ok container, w1) ->
  ConfigLabels container !! "m1k1o.neko_rooms.canary" = Some Room.labelCanary ->
  ContainerStop client id w1 = (None, w2) ->
  let options := {| RemoveVolumes := true; Force := true |} in
  Room.Remove client id st
  = (fst (ContainerRemove client id options w2),
     {| Room.world := snd (ContainerRemove client id options w2);
        Room.calls :=
          Room.calls st
            ++ [CallContainerInspect id; CallContainerStop id;
                CallContainerRemove id options] |}).
Proof.
  intros HI HL HS options. unfold Room.Remove.
  rewrite (inspectContainer_owned client id st container w1 HI HL).
  unfold Room.client_ContainerStop, Room.client_ContainerRemove, Room.logged.
  cbn [Room.world Room.calls]. rewrite HS. cbn [Room.world Room.calls].
  destruct (ContainerRemove client id _ w2) as [r w3]. rewrite <- !app_assoc. reflexivity.
Qed.

(** X9.  An id the runtime does not know is not turned into "not found":
    [Get], [Update] and [Remove] hand back the runtime's own error after
    the one inspection, and [roomGetEntry], over any manager whose
    [GetEntry] is the engine's [Get], answers it with 500 and the runtime's
    message unless that error is itself [ErrRoomNotFound]. *)
Theorem unknown_id_is_the_runtime_error (M : Api.RoomManager (Room.St W))
    (id : string) (settings : RoomSettings) (st : Room.St W) (err : error) (w1 : W)
    (log : list Api.RoomsCall) :
  ContainerInspectWithRaw client id (Room.world st) = (Err err, w1) ->
  (forall i s, Api.GetEntry M i s = Room.Get client i s) ->
  let st1 := {| Room.world := w1; Room.calls := Room.calls st ++ [CallContainerInspect id] |} in
  Room.Get client id st = (Err err, st1)
  /\ Room.Update client id settings st = (Some err, st1)
  /\ Room.Remove client id st = (Some err, st1)
  /\ Api.roomGetEntry M id {| Api.rooms := st; Api.roomsCalls := log |}
     = (Api.http_Error (Error err) (if errors_Is err ErrRoomNotFound then 404 else 500),
        {| Api.rooms := st1; Api.roomsCalls := log ++ [Api.CallGetEntry id] |}).
Proof.
  intros HI HM st1.
  assert (H : Room.inspectContainer client id st = (Err err, st1)).
  { unfold Room.inspectContainer, Room.client_ContainerInspectWithRaw, Room.logged.
    rewrite HI. reflexivity. }
  assert (HG : Room.Get client id st = (Err err, st1))
    by (unfold Room.Get; rewrite H; reflexivity).
  split; [ exact HG | ].
  split; [ unfold Room.Update; rewrite H; reflexivity | ].
  split; [ unfold Room.Remove; rewrite H; reflexivity | ].
  unfold Api.roomGetEntry, Api.rooms_GetEntry, Api.invoked.
  cbn [Api.rooms Api.roomsCalls]. rewrite HM, HG.
  destruct (errors_Is err ErrRoomNotFound); reflexivity.
Qed.

End RemoveFacts.

Lemma remove_gives_up_when_stop_fails_witness :
  fst (Room.Remove Faulty.noStop "unit-0" Sim.oneRoom)
  = Some (errorString "cannot stop container")
  /\ Room.calls (snd (Room.Remove Faulty.noStop "unit-0" Sim.oneRoom))
     = Room.calls Sim.oneRoom ++ [CallContainerInspect "unit-0"; CallContainerStop "unit-0"]
  /\ Sim.stateOf "unit-0" (Room.world (snd (Room.Remove Faulty.noStop "unit-0" Sim.oneRoom)))
     = Some Sim.UnitRunning.
Proof.
  assert (HL : ConfigLabels
                 {| JSONID := "unit-0"; ConfigLabels := Room.labels Sim.config;
                    StateRunning := true |}
               !! "m1k1o.neko_rooms.canary" = Some Room.labelCanary)
    by (vm_compute; reflexivity).
  assert (HI : ContainerInspectWithRaw Faulty.noStop "unit-0" (Room.world Sim.oneRoom)
               = (Ok {| JSONID := "unit-0"; ConfigLabels := Room.labels Sim.config;
                        StateRunning := true |}, Room.world Sim.oneRoom))
    by (vm_compute; reflexivity).
  rewrite (remove_gives_up_when_stop_fails Faulty.noStop "unit-0" Sim.oneRoom _ _ _ _
             HI HL eq_refl).
  split; [ reflexivity | ]. split; [ reflexivity | vm_compute; reflexivity ].
Defined.

Lemma remove_stops_then_removes_witness :
  fst (Room.Remove Sim.client "unit-0" Sim.oneRoom) = None
  /\ Room.calls (snd (Room.Remove Sim.client "unit-0" Sim.oneRoom))
     = Room.calls Sim.oneRoom
         ++ [CallContainerInspect "unit-0"; CallContainerStop "unit-0";
             CallContainerRemove "unit-0" {| RemoveVolumes := true; Force := true |}]
  /\ Sim.stateOf "unit-0" (Room.world (snd (Room.Remove Sim.client "unit-0" Sim.oneRoom)))
     = None.
Proof.
  assert (HL : ConfigLabels
                 {| JSONID := "unit-0"; ConfigLabels := Room.labels Sim.config;
                    StateRunning := true |}
               !! "m1k1o.neko_rooms.canary" = Some Room.labelCanary)
    by (vm_compute; reflexivity).
  assert (HI : ContainerInspectWithRaw Sim.client "unit-0" (Room.world Sim.oneRoom)
               = (Ok {| JSONID := "unit-0"; ConfigLabels := Room.labels Sim.config;
                        StateRunning := true |}, Room.world Sim.oneRoom))
    by (vm_compute; reflexivity).
  assert (HS : ContainerStop Sim.client "unit-0" (Room.world Sim.oneRoom)
               = (None, snd (ContainerStop Sim.client "unit-0" (Room.world Sim.oneRoom))))
    by (vm_compute; reflexivity).
  rewrite (remove_stops_then_removes Sim.client "unit-0" Sim.oneRoom _ _ _ HI HL HS).
  split; [ vm_compute; reflexivity | ].
  split; [ reflexivity | vm_compute; reflexivity ].
Defined.

Lemma unknown_id_is_the_runtime_error_witness :
  fst (Room.Get Sim.client "nobody" Sim.oneRoom)
  = Err (errorString "Error: No such container: nobody")
  /\ fst (Api.roomGetEntry Sim.lookup "nobody"
            {| Api.rooms := Sim.oneRoom; Api.roomsCalls := [] |})
     = Api.http_Error "Error: No such container: nobody" 500.
Proof.
  destruct (unknown_id_is_the_runtime_error Sim.client Sim.lookup "nobody"
              zeroSettings Sim.oneRoom (errorString "Error: No such container: nobody")
              (Room.world Sim.oneRoom) [] eq_refl (fun _ _ => eq_refl))
    as (HG & _ & _ & HE).
  split; [ rewrite HG; reflexivity | exact (f_equal fst HE) ].
Defined.

(** X8.  [Create] does not clean up after a failed start: when the runtime
    creates the unit and then refuses to start it, [Create] returns the
    start's error having made the two calls and no removal, so the unit
    just created stays in the runtime. *)
Theorem create_leaves_the_unit_when_start_fails {W : Type} (client : Client W)
    (config : Config.Room)
    (settings_Env : RoomSettings -> N -> N -> list string -> list string)
    (settings : RoomSettings) (st : Room.St W) (id : string) (w1 w2 : W) (err : error) :
  ContainerCreate client (Room.containerConfig config settings_Env settings) Room.hostConfig
    (Room.networkingConfig config) Room.containerName (Room.world st) = (Ok id, w1) ->
  ContainerStart client id w1 = (Some err, w2) ->
  Room.Create client config settings_Env settings st
  = (Err err,
     {| Room.world := w2;
        Room.calls :=
          Room.calls st
            ++ [CallContainerCreate (Room.containerConfig config settings_Env settings)
                  Room.hostConfig (Room.networkingConfig config) Room.containerName;
                CallContainerStart id] |}).
Proof.
  intros HC HS.
  unfold Room.Create, Room.client_ContainerCreate, Room.client_ContainerStart, Room.logged.
  rewrite HC. cbn [Room.world Room.calls]. rewrite HS, <- app_assoc. reflexivity.
Qed.

Lemma create_leaves_the_unit_when_start_fails_witness :
  let failed := Room.Create Faulty.noStart Sim.config Sim.settings_Env Sim.defaults Sim.start in
  fst failed = Err (errorString "driver failed programming external connectivity")
  /\ Sim.stateOf "unit-0" (Room.world (snd failed)) = Some Sim.UnitCreated
  /\ fst (Room.Create Faulty.noStart Sim.config Sim.settings_Env Sim.defaults (snd failed))
     = Err (errorString "Conflict. The container name /neko-room-foobar is already in use").
Proof.
  cbv zeta.
  rewrite (create_leaves_the_unit_when_start_fails Faulty.noStart Sim.config Sim.settings_Env
             Sim.defaults Sim.start "unit-0"
             (snd (ContainerCreate Faulty.noStart
                     (Room.containerConfig Sim.config Sim.settings_Env Sim.defaults)
                     Room.hostConfig (Room.networkingConfig Sim.config) Room.containerName
                     (Room.world Sim.start)))
             _ _ ltac:(vm_compute; reflexivity) eq_refl).
  split; [ reflexivity | ]. split; vm_compute; reflexivity.
Defined.

(** X10.  The TLS labels depend on the certificate resolver alone: for any
    configuration, the unit's labels carry [tls = "true"] and the
    resolver's name exactly when a resolver is configured, which makes
    twelve labels instead of ten; the canary and the routing rule for
    the configured domain are there either way. *)
Theorem labels_have_tls_iff_resolver (config : Config.Room) :
  let resolver := Config.TraefikCertresolver config in
  let configured := negb (String.eqb resolver "") in
  Room.labels config !! "traefik.http.routers.neko-room-foobar.tls"
  = (if configured then Some "true" else None)
  /\ Room.labels config !! "traefik.http.routers.neko-room-foobar.tls.certresolver"
     = (if configured then Some resolver else None)
  /\ size (Room.labels config) = (if configured then 12 else 10)
  /\ Room.labels config !! "m1k1o.neko_rooms.canary" = Some "m1k1o-neko-rooms"
  /\ Room.labels config !! "traefik.http.routers.neko-room-foobar.rule"
     = Some ("Host(`" +:+ Config.TraefikDomain config +:+ "`) && PathPrefix(`/foobar`)")
  /\ Room.labels config !! "traefik.http.routers.neko-room-foobar.entrypoints"
     = Some (Config.TraefikEntrypoint config).
Proof.
  cbv zeta. unfold Room.labels.
  destruct (String.eqb (Config.TraefikCertresolver config) ""); cbn [negb];
    repeat split; vm_compute; reflexivity.
Qed.

(** ** The handlers: bodies that are refused *)










(** ** [roomRecreate]: what each answer means *)
Section RecreateFacts.

Context {S : Type}.
Variable M : Api.RoomManager S.

(** From [Remove] on the handler answers 200 or 500, or panics. *)
Lemma roomRecreate_replace_status (entry : RoomData) (roomId : string)
    (settings : option RoomSettings) (st : Api.ApiSt S) :
  let r := Api.roomRecreate_replace M entry roomId settings st in
  Api.status (fst r) = Some 500%N \/ Api.status (fst r) = Some 200%N \/ fst r = Api.Panic.
Proof.
  destruct settings as [settings | ].
  - destruct (roomRecreate_replace_facts M entry roomId settings st) as ([H | H] & _); auto.
  - cbv zeta. unfold Api.roomRecreate_replace, Api.rooms_Remove, Api.invoked.
    destruct (Api.Remove M roomId (Api.rooms st)) as [[e | ] s1]; cbn; auto.
Qed.

(** X12.  A 4xx answer of [roomRecreate] means that nothing was touched:
    whenever the handler answers 400 or 404, all it has called on the
    manager is [GetEntry], or [GetEntry] and [GetSettings]; no room was
    removed, created or started. *)
Theorem recreate_client_error_changes_nothing (roomId : string) (body : Body)
    (st : Api.ApiSt S) :
  let r := Api.roomRecreate M roomId body st in
  Api.status (fst r) = Some 400%N \/ Api.status (fst r) = Some 404%N ->
  Api.roomsCalls (snd r) = Api.roomsCalls st ++ [Api.CallGetEntry roomId]
  \/ Api.roomsCalls (snd r)
     = Api.roomsCalls st ++ [Api.CallGetEntry roomId; Api.CallGetSettings roomId].
Proof.
  cbv zeta. unfold Api.roomRecreate, Api.rooms_GetEntry, Api.rooms_GetSettings, Api.invoked.
  destruct (Api.GetEntry M roomId (Api.rooms st)) as [[entry | e] s1];
    cbn [Api.rooms Api.roomsCalls].
  2: { intros _. left. destruct (errors_Is e ErrRoomNotFound); reflexivity. }
  destruct (Api.GetSettings M roomId s1) as [[stored | e] s2].
  2: { cbn. intros [H | H]; discriminate. }
  destruct (DecodePtr body (Some stored)) as [settings decoded].
  assert (Htail : forall st0,
             Api.status (fst (Api.roomRecreate_replace M entry roomId settings st0))
             = Some 400%N
             \/ Api.status (fst (Api.roomRecreate_replace M entry roomId settings st0))
                = Some 404%N -> False).
  { intros st0 H.
    destruct (roomRecreate_replace_status entry roomId settings st0) as [H' | [H' | H']];
      rewrite H' in H; destruct H; discriminate. }
  destruct decoded as [e | ].
  - destruct (errors_Is e EOF); cbn [negb].
    + intros H. destruct (Htail _ H).
    + intros _. right. cbn. rewrite <- app_assoc. reflexivity.
  - intros H. destruct (Htail _ H).
Qed.


(** X13.  The body [null] costs the room.  It decodes without error and
    sets the settings pointer to nil; the handler goes on to remove the
    room and then dereferences the pointer: when [Remove] succeeds the
    handler panics, having called [GetEntry], [GetSettings] and [Remove]
    and never [Create]. *)
Theorem recreate_null_body_removes_then_panics (roomId : string) (st : Api.ApiSt S)
    (entry : RoomData) (stored : RoomSettings) (st1 st2 st3 : S) :
  Api.GetEntry M roomId (Api.rooms st) = (Ok entry, st1) ->
  Api.GetSettings M roomId st1 = (Ok stored, st2) ->
  Api.Remove M roomId st2 = (None, st3) ->
  Api.roomRecreate M roomId (BodyValue JNull) st
  = (Api.Panic,
     {| Api.rooms := st3;
        Api.roomsCalls :=
          Api.roomsCalls st
            ++ [Api.CallGetEntry roomId; Api.CallGetSettings roomId;
                Api.CallRemove roomId] |}).
Proof.
  intros HE HS HR.
  rewrite (roomRecreate_decoded M roomId (BodyValue JNull) st entry stored st1 st2 None None
             HE HS eq_refl (or_introl eq_refl)).
  unfold Api.roomRecreate_replace, Api.rooms_Remove, Api.invoked.
  cbn [Api.rooms Api.roomsCalls]. rewrite HR, <- app_assoc. reflexivity.
Qed.

(** X14.  [roomRecreate] does not bring the old room back: when the room
    was removed and [Create] then fails, the handler answers 500 with the
    error's text and stops; [Create] was its last call on the manager. *)
Theorem recreate_failed_create_loses_the_room (roomId : string) (body : Body)
    (st : Api.ApiSt S) (entry : RoomData) (stored settings : RoomSettings)
    (decoded : option error) (st1 st2 st3 st4 : S) (err : error) :
  Api.GetEntry M roomId (Api.rooms st) = (Ok entry, st1) ->
  Api.GetSettings M roomId st1 = (Ok stored, st2) ->
  DecodePtr body (Some stored) = (Some settings, decoded) ->
  decoded = None \/ decoded = Some EOF ->
  Api.Remove M roomId st2 = (None, st3) ->
  Api.Create M settings st3 = (Err err, st4) ->
  Api.roomRecreate M roomId body st
  = (Api.http_Error (Error err) 500,
     {| Api.rooms := st4;
        Api.roomsCalls :=
          Api.roomsCalls st
            ++ [Api.CallGetEntry roomId; Api.CallGetSettings roomId;
                Api.CallRemove roomId; Api.CallCreate settings] |}).
Proof.
  intros HE HS HD Hdec HR HC.
  rewrite (roomRecreate_decoded M roomId body st entry stored st1 st2 (Some settings) decoded
             HE HS HD Hdec).
  unfold Api.roomRecreate_replace, Api.rooms_Remove, Api.rooms_Create, Api.invoked.
  cbn [Api.rooms Api.roomsCalls]. rewrite HR. cbn [Api.rooms Api.roomsCalls].
  rewrite HC, <- !app_assoc. reflexivity.
Qed.

End RecreateFacts.

Lemma recreate_client_error_changes_nothing_witness :
  let r := Api.roomRecreate Mem.manager "room-7" BodyEmpty (Mem.holding Sim.defaults) in
  Api.status (fst r) = Some 404%N
  /\ Api.roomsCalls (snd r) = [Api.CallGetEntry "room-7"]
  /\ Api.rooms (snd r) = Api.rooms (Mem.holding Sim.defaults).
Proof.
  cbv zeta.
  assert (H404 : Api.status (fst (Api.roomRecreate Mem.manager "room-7" BodyEmpty
                                    (Mem.holding Sim.defaults))) = Some 404%N)
    by (vm_compute; reflexivity).
  split; [ exact H404 | ].
  destruct (recreate_client_error_changes_nothing Mem.manager "room-7" BodyEmpty
              (Mem.holding Sim.defaults) (or_intror H404)) as [H | H].
  - split; [ exact H | vm_compute; reflexivity ].
  - exfalso. vm_compute in H. discriminate.
Defined.

Lemma recreate_null_body_removes_then_panics_witness :
  let r := Api.roomRecreate Mem.manager "room-0" (BodyValue JNull) (Mem.holding Sim.defaults) in
  fst r = Api.Panic
  /\ Api.roomsCalls (snd r)
     = [Api.CallGetEntry "room-0"; Api.CallGetSettings "room-0"; Api.CallRemove "room-0"]
  /\ Mem.entries (Api.rooms (snd r)) !! "room-0" = None.
Proof.
  cbv zeta.
  rewrite (recreate_null_body_removes_then_panics Mem.manager "room-0"
             (Mem.holding Sim.defaults)
             {| ID := "room-0"; Settings := Sim.defaults; Running := false;
                EPR := zeroPortRange |}
             Sim.defaults _ _ _ eq_refl eq_refl eq_refl).
  split; [ reflexivity | ]. split; [ reflexivity | vm_compute; reflexivity ].
Defined.

Lemma recreate_failed_create_loses_the_room_witness :
  let r := Api.roomRecreate Faulty.noCreate "room-0" BodyEmpty (Mem.holding Sim.defaults) in
  fst r = Api.http_Error "no space left on device" 500
  /\ Api.roomsCalls (snd r)
     = [Api.CallGetEntry "room-0"; Api.CallGetSettings "room-0"; Api.CallRemove "room-0";
        Api.CallCreate Sim.defaults]
  /\ Mem.entries (Api.rooms (snd r)) !! "room-0" = None.
Proof.
  cbv zeta.
  rewrite (recreate_failed_create_loses_the_room Faulty.noCreate "room-0" BodyEmpty
             (Mem.holding Sim.defaults)
             {| ID := "room-0"; Settings := Sim.defaults; Running := false;
                EPR := zeroPortRange |}
             Sim.defaults Sim.defaults (Some EOF) _ _ _ _
             (errorString "no space left on device")
             eq_refl eq_refl eq_refl (or_intror eq_refl) eq_refl eq_refl).
  split; [ reflexivity | ]. split; [ reflexivity | vm_compute; reflexivity ].
Defined.

(** ** [roomCreate] and [roomsList]: what a 200 answer stands for *)

(** X16.  [roomCreate] answers 200 only after the whole chain succeeded:
    the body decoded without error, the manager's [Create] returned an id,
    [Start] and [GetEntry] succeeded for that very id, the payload is
    [GetEntry]'s result, and these three are the calls it made, in this
    order; a room is never removed by [roomCreate]. *)
Theorem create_200_means_created_started_read {S : Type} (M : Api.RoomManager S)
    (body : Body) (st st' : Api.ApiSt S) (payload : Api.Payload) :
  Api.roomCreate M body st = (Api.Encoded payload, st') ->
  exists request ID response s1 s2,
    Decode body Sim.defaults = (request, None)
    /\ Api.Create M request (Api.rooms st) = (Ok ID, s1)
    /\ Api.Start M ID s1 = (None, s2)
    /\ Api.GetEntry M ID s2 = (Ok response, Api.rooms st')
    /\ payload = Api.JSONRoom response
    /\ Api.roomsCalls st'
       = Api.roomsCalls st
           ++ [Api.CallCreate request; Api.CallStart ID; Api.CallGetEntry ID].
Proof.
  unfold Api.roomCreate.
  change {| Name := ""; NekoImage := ""; MaxConnections := 10;
            Resources := {| CPUShares := 0; Memory := 0; ShmSize := 2 * 10 ^ 9 |} |}
    with Sim.defaults.
  destruct (Decode body Sim.defaults) as [request [e | ]]; [ discriminate | ].
  unfold Api.rooms_Create, Api.rooms_Start, Api.rooms_GetEntry, Api.invoked.
  destruct (Api.Create M request (Api.rooms st)) as [[ID | e] s1] eqn:HC;
    cbn [Api.rooms Api.roomsCalls]; [ | discriminate ].
  destruct (Api.Start M ID s1) as [[e | ] s2] eqn:HS;
    cbn [Api.rooms Api.roomsCalls]; [ discriminate | ].
  destruct (Api.GetEntry M ID s2) as [[response | e] s3] eqn:HG; [ | discriminate ].
  intros [= <- <-]. exists request, ID, response, s1, s2.
  cbn [Api.rooms Api.roomsCalls]. rewrite <- !app_assoc. repeat split; auto.
Qed.

Lemma create_200_means_created_started_read_witness :
  let body := BodyValue (JObject [("maxConnections", JNumber false 5)]) in
  let answer := Api.roomCreate Mem.manager body (Mem.holding Sim.defaults) in
  (exists payload, fst answer = Api.Encoded payload)
  /\ exists request ID response s1 s2,
       Decode body Sim.defaults = (request, None)
       /\ Api.Create Mem.manager request (Api.rooms (Mem.holding Sim.defaults)) = (Ok ID, s1)
       /\ Api.Start Mem.manager ID s1 = (None, s2)
       /\ Api.GetEntry Mem.manager ID s2 = (Ok response, Api.rooms (snd answer))
       /\ Running response = true
       /\ MaxConnections (Settings response) = 5%N.
Proof.
  cbv zeta.
  assert (H : Api.roomCreate Mem.manager (BodyValue (JObject [("maxConnections", JNumber false 5)]))
                (Mem.holding Sim.defaults)
              = (Api.Encoded
                   (Api.JSONRoom
                      {| ID := "room-1";
                         Settings :=
                           {| Name := ""; NekoImage := ""; MaxConnections := 5;
                              Resources := {| CPUShares := 0; Memory := 0;
                                              ShmSize := 2 * 10 ^ 9 |} |};
                         Running := true; EPR := zeroPortRange |}),
                 snd (Api.roomCreate Mem.manager
                        (BodyValue (JObject [("maxConnections", JNumber false 5)]))
                        (Mem.holding Sim.defaults))))
    by (vm_compute; reflexivity).
  split; [ eexists; rewrite H; reflexivity | ].
  destruct (create_200_means_created_started_read Mem.manager _ _ _ _ H)
    as (request & ID & response & s1 & s2 & HD & HC & HS & HG & Hp & _).
  exists request, ID, response, s1, s2.
  injection Hp as <-. repeat split; auto.
Defined.

Lemma roomsList_loop_provenance (CheckLabelKey : string -> bool)
    (mapToLower : string -> string) (query : Api.Query)
    (labelsMap labels : gmap string string) (k v : string) :
  Api.roomsList_loop CheckLabelKey mapToLower query labelsMap = Some labels ->
  labels !! k = Some v ->
  labelsMap !! k = Some v
  \/ exists key others, In (key, (v, others)) query /\ ToLower mapToLower key = k.
Proof.
  revert labelsMap.
  induction query as [ | [key [value0 others]] rest IH]; intros labelsMap;
    cbn [Api.roomsList_loop].
  - intros [= <-] H. left. exact H.
  - destruct (CheckLabelKey (ToLower mapToLower key)); cbn [negb]; [ | discriminate ].
    intros Hloop Hk. destruct (IH _ Hloop Hk) as [Hin | (key' & others' & Hin & Hlow)].
    + destruct (decide (ToLower mapToLower key = k)) as [Heq | Hne].
      * subst k. rewrite lookup_insert_eq in Hin. injection Hin as <-.
        right. exists key, others. split; [ left; reflexivity | reflexivity ].
      * rewrite lookup_insert_ne in Hin by exact Hne. left. exact Hin.
    + right. exists key', others'. split; [ right; exact Hin | exact Hlow ].
Qed.

(** X17.  The filter that [roomsList] hands to the manager holds nothing
    but what the query said: every entry of the filter is the lower-cased
    key of some query parameter together with that parameter's first
    value; further values of a parameter are never used. *)
Theorem list_filter_comes_from_the_query {S : Type} (M : Api.RoomManager S)
    (CheckLabelKey : string -> bool) (mapToLower : string -> string) (query : Api.Query)
    (st : Api.ApiSt S) (labels : gmap string string) (k v : string) :
  In (Api.CallList labels)
    (Api.roomsCalls
       (snd (Api.roomsList M CheckLabelKey mapToLower query
               {| Api.rooms := Api.rooms st; Api.roomsCalls := [] |}))) ->
  labels !! k = Some v ->
  exists key others, In (key, (v, others)) query /\ ToLower mapToLower key = k.
Proof.
  unfold Api.roomsList.
  destruct (Api.roomsList_loop CheckLabelKey mapToLower query ∅) as [labelsMap | ] eqn:Hloop;
    [ | intros [] ].
  unfold Api.rooms_List, Api.invoked. cbn [Api.rooms Api.roomsCalls].
  destruct (Api.List M labelsMap (Api.rooms st)) as [[response | e] s1];
    cbn [snd Api.roomsCalls app]; (intros [[= <-] | []]); intros Hk;
    (destruct (roomsList_loop_provenance _ _ _ _ _ _ _ Hloop Hk) as [Hempty | H];
     [ rewrite lookup_empty in Hempty; discriminate | exact H ]).
Qed.

Lemma list_filter_comes_from_the_query_witness :
  let query := [("App", ("neko", ["other"]))] in
  Api.roomsCalls
    (snd (Api.roomsList Mem.manager Sim.CheckLabelKey Sim.mapToLower query
            {| Api.rooms := Api.rooms (Mem.holding Sim.defaults); Api.roomsCalls := [] |}))
  = [Api.CallList {["app" := "neko"]}]
  /\ exists key others,
       In (key, ("neko", others)) query /\ ToLower Sim.mapToLower key = "app".
Proof.
  cbv zeta.
  assert (H : Api.roomsCalls
                (snd (Api.roomsList Mem.manager Sim.CheckLabelKey Sim.mapToLower
                        [("App", ("neko", ["other"]))]
                        {| Api.rooms := Api.rooms (Mem.holding Sim.defaults);
                           Api.roomsCalls := [] |}))
              = [Api.CallList {["app" := "neko"]}]) by (vm_compute; reflexivity).
  split; [ exact H | ].
  refine (list_filter_comes_from_the_query Mem.manager Sim.CheckLabelKey Sim.mapToLower
            [("App", ("neko", ["other"]))] (Mem.holding Sim.defaults)
            {["app" := "neko"]} "app" "neko" _ _).
  - rewrite H. left. reflexivity.
  - vm_compute. reflexivity.
Defined.

(** ** [roomCreate]: the request handed to the manager *)


